(** * PhysicalPort: the listening endpoint of OvenMediaEngine

    Shallow embedding of [src/projects/modules/physical_port/physical_port.cpp].
    A [PhysicalPort] owns one transport primitive (an [ov::ServerSocket] or an
    [ov::DatagramSocket]), a pool of workers, the event-loop thread and the
    list of observers.  Member functions are state transformers over the
    record of the object's fields; they can fault (a failed assertion, a null
    [shared_ptr] dereferenced, [std::terminate], [std::out_of_range]) and they
    log the calls they make on their collaborators, in program order. *)

From stdpp Require Import base list numbers strings.
From Stdlib Require Import ZArith Lia.

Local Open Scope Z_scope.

(** ** The [ov] namespace: what the port uses of the socket library *)

Module ov.

(** [enum class ov::SocketType], the four enumerators [Create] switches on. *)
Module SocketType.
Inductive t := Unknown | Udp | Tcp | Srt.
End SocketType.

(** [enum class ov::SocketState].  The port only ever compares a state with
    [Closed]; the other enumerators are declared in the socket library and
    stay abstract behind a tag. *)
Module SocketState.
Inductive t := Closed | Other (tag : nat).

Definition is_closed (s : t) : bool :=
  match s with Closed => true | Other _ => false end.
End SocketState.

(** [enum class ov::SocketConnectionState], the three cases of
    [client_callback]. *)
Module SocketConnectionState.
Inductive t := Connected | Disconnected | Error.
End SocketConnectionState.

(** Modelled from the spec: [ov::SocketAddress] is declared in the socket
    library; the spec writes an address as host and port ([0.0.0.0:9000]). *)
Record SocketAddress := { host : string; port : Z }.

(** Modelled from the spec: [ov::Data] is declared in the base library; the
    spec has it as an opaque, immutable byte buffer. *)
Definition Data := string.

(** Modelled from the spec: [ov::Error] is declared in the base library; the
    spec has it as the detail attached to a connection error. *)
Definition Error := string.

(** [client->GetSocket().GetSocket()] is the native descriptor of the
    connection, a C [int]. *)
Module SocketWrapper.
Record t := { GetSocket : Z }.
End SocketWrapper.

Module ClientSocket.
Record t := { GetSocket : SocketWrapper.t }.
End ClientSocket.

(** The transport primitive is an external collaborator: the port sees it
    only through [GetState] and [Close] (both kinds) and through [Prepare]
    (one signature per kind).  A member function that mutates the object and
    returns a [bool] becomes a function to a pair. *)
Class Socket (S : Type) := {
  GetState : S -> SocketState.t;
  Close : S -> bool * S;
}.

Class ServerSocket (S : Type) `{Socket S} := {
  Prepare : S -> SocketType.t -> SocketAddress -> Z -> Z -> Z -> bool * S;
}.

Class DatagramSocket (D : Type) `{Socket D} := {
  PrepareDatagram : D -> SocketAddress -> bool * D;
}.

(** [ServerSocket::DisconnectClient], the forced disconnect the port forwards
    to; it is kept apart from [ServerSocket] since only
    [PhysicalPort::DisconnectClient] needs it. *)
Class ClientDisconnect (S : Type) := {
  DisconnectClient :
    S -> ClientSocket.t -> SocketConnectionState.t -> bool * S;
}.

End ov.

(** [enum class PhysicalPortDisconnectReason], as [client_callback] uses it. *)
Module PhysicalPortDisconnectReason.
Inductive t := Disconnected | Error.
End PhysicalPortDisconnectReason.

(** Observers are registered by raw pointer ([PhysicalPortObserver *]): an
    observer is its address, and [std::find] compares addresses. *)
Definition PhysicalPortObserver := nat.

Definition PHYSICAL_PORT_WORKER_COUNT : Z := 16.
Definition PHYSICAL_PORT_EPOLL_TIMEOUT_MSEC : Z := 500.

(** ** Workers *)

Module PhysicalPortWorker.

(** A task is a connection handle and the buffer received on it. *)
Definition Task : Type := ov.ClientSocket.t * ov.Data.

(** Modelled from the spec: [PhysicalPortWorker] is declared in
    [physical_port_worker.h], which the port only includes.  A worker has a
    running flag, an ordered queue of tasks and one processing thread. *)
Record t := { running : bool; queue : list Task }.

(** Modelled from the spec: a worker is constructed idle, its queue empty. *)
Definition make : t := {| running := false; queue := [] |}.

(** Modelled from the spec: [Start] sets the worker running. *)
Definition Start (w : t) : t := {| running := true; queue := queue w |}.

(** Modelled from the spec: [Stop] signals the thread, joins it and discards
    the tasks that were not drained. *)
Definition Stop (w : t) : t := {| running := false; queue := [] |}.

(** Modelled from the spec: [AddTask] always succeeds, by enqueueing at the
    back. *)
Definition AddTask (client : ov.ClientSocket.t) (data : ov.Data) (w : t) : t :=
  {| running := running w; queue := queue w ++ [(client, data)] |}.

End PhysicalPortWorker.

(** ** The port *)

Module PhysicalPort.

(** The two bodies [proc] a port can run on its thread. *)
Inductive EventLoop := ServerLoop | DatagramLoop.

(** [std::thread _thread]: default constructed, running [proc], or done with
    it and not joined yet.  The last two are joinable. *)
Inductive Thread := NoThread | Looping (body : EventLoop) | Finished.

Definition joinable (th : Thread) : bool :=
  match th with NoThread => false | Looping _ | Finished => true end.

(** What an observer is called with.  A datagram observer is also handed the
    port's own datagram socket, which is left out here. *)
Inductive Notification :=
| OnConnected (observer : PhysicalPortObserver) (client : ov.ClientSocket.t)
| OnDisconnected (observer : PhysicalPortObserver) (client : ov.ClientSocket.t)
    (reason : PhysicalPortDisconnectReason.t) (error : option ov.Error)
| OnDataReceived (observer : PhysicalPortObserver)
    (remote_address : ov.SocketAddress) (data : ov.Data).

(** Who calls [Close] on the transport primitive: [PhysicalPort::Close], or
    the last statement of [proc]. *)
Inductive Caller := ByPort | ByLoop.

(** The calls a member function makes, in program order. *)
Inductive Event :=
| WorkerCreated
| WorkerStart (index : nat)
| WorkerStop (index : nat)
| WorkerListCleared
| SocketPrepare (type : ov.SocketType.t) (address : ov.SocketAddress)
| StopFlag (value : bool)
| ThreadStarted (body : EventLoop)
| ThreadJoined
| SocketGetState
| SocketClose (by_whom : Caller)
| ObserverListCleared
| Notify (n : Notification)
| TaskAdded (index : nat) (task : PhysicalPortWorker.Task).

Inductive Fault :=
| AssertionFailed   (* OV_ASSERT2 on a false condition, where it is fatal *)
| NullPointer       (* operator-> on an empty shared_ptr *)
| Terminate         (* std::thread assigned over a joinable thread *)
| OutOfRange.       (* std::vector::at past the end *)

Inductive Outcome (A : Type) :=
| Done (result : A) (log : list Event)
| Crash (f : Fault).
Arguments Done {A} result log.
Arguments Crash {A} f.

Section State.

Context {S D : Type} `{ov.ServerSocket S} `{ov.DatagramSocket D}.

(** The data members of [class PhysicalPort]. *)
Record t := {
  _type : ov.SocketType.t;
  _address : ov.SocketAddress;
  _server_socket : option S;
  _datagram_socket : option D;
  _need_to_stop : bool;
  _thread : Thread;
  _worker_list : list PhysicalPortWorker.t;
  _observer_list : list PhysicalPortObserver;
}.

(** [PhysicalPort::PhysicalPort()] *)
Definition make : t := {|
  _type := ov.SocketType.Unknown;
  _address := {| ov.host := EmptyString; ov.port := 0 |};
  _server_socket := None;
  _datagram_socket := None;
  _need_to_stop := true;
  _thread := NoThread;
  _worker_list := [];
  _observer_list := [];
|}.

Definition set_type (v : ov.SocketType.t) (p : t) : t :=
  {| _type := v; _address := _address p; _server_socket := _server_socket p;
     _datagram_socket := _datagram_socket p; _need_to_stop := _need_to_stop p;
     _thread := _thread p; _worker_list := _worker_list p;
     _observer_list := _observer_list p |}.
Definition set_address (v : ov.SocketAddress) (p : t) : t :=
  {| _type := _type p; _address := v; _server_socket := _server_socket p;
     _datagram_socket := _datagram_socket p; _need_to_stop := _need_to_stop p;
     _thread := _thread p; _worker_list := _worker_list p;
     _observer_list := _observer_list p |}.
Definition set_server_socket (v : option S) (p : t) : t :=
  {| _type := _type p; _address := _address p; _server_socket := v;
     _datagram_socket := _datagram_socket p; _need_to_stop := _need_to_stop p;
     _thread := _thread p; _worker_list := _worker_list p;
     _observer_list := _observer_list p |}.
Definition set_datagram_socket (v : option D) (p : t) : t :=
  {| _type := _type p; _address := _address p; _server_socket := _server_socket p;
     _datagram_socket := v; _need_to_stop := _need_to_stop p;
     _thread := _thread p; _worker_list := _worker_list p;
     _observer_list := _observer_list p |}.
Definition set_need_to_stop (v : bool) (p : t) : t :=
  {| _type := _type p; _address := _address p; _server_socket := _server_socket p;
     _datagram_socket := _datagram_socket p; _need_to_stop := v;
     _thread := _thread p; _worker_list := _worker_list p;
     _observer_list := _observer_list p |}.
Definition set_thread (v : Thread) (p : t) : t :=
  {| _type := _type p; _address := _address p; _server_socket := _server_socket p;
     _datagram_socket := _datagram_socket p; _need_to_stop := _need_to_stop p;
     _thread := v; _worker_list := _worker_list p;
     _observer_list := _observer_list p |}.
Definition set_worker_list (v : list PhysicalPortWorker.t) (p : t) : t :=
  {| _type := _type p; _address := _address p; _server_socket := _server_socket p;
     _datagram_socket := _datagram_socket p; _need_to_stop := _need_to_stop p;
     _thread := _thread p; _worker_list := v;
     _observer_list := _observer_list p |}.
Definition set_observer_list (v : list PhysicalPortObserver) (p : t) : t :=
  {| _type := _type p; _address := _address p; _server_socket := _server_socket p;
     _datagram_socket := _datagram_socket p; _need_to_stop := _need_to_stop p;
     _thread := _thread p; _worker_list := _worker_list p;
     _observer_list := v |}.

(** *** Member functions as actions on the object *)

Definition M (A : Type) : Type := t -> Outcome (A * t).

Definition ret {A} (a : A) : M A := fun p => Done (a, p) [].

Definition bind {A B} (m : M A) (k : A -> M B) : M B :=
  fun p =>
    match m p with
    | Done (a, p') l1 =>
        match k a p' with
        | Done r l2 => Done r (l1 ++ l2)
        | Crash f => Crash f
        end
    | Crash f => Crash f
    end.

Definition crash {A} (f : Fault) : M A := fun _ => Crash f.
Definition emit (e : Event) : M unit := fun p => Done (tt, p) [e].
Definition emits (es : list Event) : M unit := fun p => Done (tt, p) es.
Definition gets {A} (f : t -> A) : M A := fun p => Done (f p, p) [].
Definition modify (f : t -> t) : M unit := fun p => Done (tt, f p) [].

End State.

Arguments t : clear implicits.
Arguments M : clear implicits.

Declare Scope port_scope.
Delimit Scope port_scope with port.
Notation "'let*' x ':=' m 'in' k" := (bind m (fun x => k))
  (at level 10, x name, m at level 100, k at level 200, only parsing) : port_scope.
Notation "m ;; k" := (bind m (fun _ => k))
  (at level 100, k at level 200, only parsing, right associativity) : port_scope.

Local Open Scope port_scope.

Section Members.

Context {S D : Type} `{ov.ServerSocket S} `{ov.DatagramSocket D}.

(** [OV_ASSERT2] is a macro of the base library.  Whether a failed assertion
    stops the program depends on the build, so it is a parameter: when
    [assert_is_fatal] is false the macro has no effect. *)
Variable assert_is_fatal : bool.

Definition OV_ASSERT2 (condition : bool) : M S D unit :=
  if condition then ret tt
  else if assert_is_fatal then crash AssertionFailed else ret tt.

Definition is_null {A} (ptr : option A) : bool :=
  match ptr with None => true | Some _ => false end.

(** [for (index = 0; index < n; index++) _worker_list.emplace_back(...)] *)
Fixpoint emplace_workers (n : nat) : M S D unit :=
  match n with
  | O => ret tt
  | Datatypes.S n' =>
      emit WorkerCreated ;;
      modify (fun p => set_worker_list (_worker_list p ++ [PhysicalPortWorker.make]) p) ;;
      emplace_workers n'
  end.

(** [for (auto &worker : _worker_list) worker->Start();] *)
Definition start_workers : M S D unit :=
  let* workers := gets _worker_list in
  emits (imap (fun index _ => WorkerStart index) workers) ;;
  modify (set_worker_list (map PhysicalPortWorker.Start workers)).

(** [for (auto &worker : _worker_list) worker->Stop();] *)
Definition stop_workers : M S D unit :=
  let* workers := gets _worker_list in
  emits (imap (fun index _ => WorkerStop index) workers) ;;
  modify (set_worker_list (map PhysicalPortWorker.Stop workers)).

(** [_thread = std::thread(proc)]: move assignment over a joinable thread
    calls [std::terminate]. *)
Definition start_thread (body : EventLoop) : M S D unit :=
  let* th := gets _thread in
  if joinable th then crash Terminate
  else (emit (ThreadStarted body) ;; modify (set_thread (Looping body))).

Definition CreateServerSocket (socket : S) (type : ov.SocketType.t)
    (address : ov.SocketAddress) (send_buffer_size recv_buffer_size : Z)
  : M S D bool :=
  emplace_workers (Z.to_nat PHYSICAL_PORT_WORKER_COUNT) ;;
  start_workers ;;
  emit (SocketPrepare type address) ;;
  let '(prepared, socket) :=
    ov.Prepare socket type address send_buffer_size recv_buffer_size 4096 in
  if prepared then
    modify (set_type type) ;;
    modify (set_server_socket (Some socket)) ;;
    emit (StopFlag false) ;;
    modify (set_need_to_stop false) ;;
    start_thread ServerLoop ;;
    modify (set_address address) ;;
    ret true
  else ret false.

Definition CreateDatagramSocket (socket : D) (type : ov.SocketType.t)
    (address : ov.SocketAddress) : M S D bool :=
  emit (SocketPrepare type address) ;;
  let '(prepared, socket) := ov.PrepareDatagram socket address in
  if prepared then
    modify (set_type type) ;;
    modify (set_datagram_socket (Some socket)) ;;
    emit (StopFlag false) ;;
    modify (set_need_to_stop false) ;;
    start_thread DatagramLoop ;;
    modify (set_address address) ;;
    ret true
  else ret false.

(** [PhysicalPort::Create].  [server] and [datagram] stand for the objects
    [std::make_shared] hands to [CreateServerSocket] and
    [CreateDatagramSocket]: the primitive as the environment provides it at
    this call. *)
Definition Create (server : S) (datagram : D) (type : ov.SocketType.t)
    (address : ov.SocketAddress) (send_buffer_size recv_buffer_size : Z)
  : M S D bool :=
  let* srv := gets _server_socket in
  let* dgr := gets _datagram_socket in
  OV_ASSERT2 (is_null srv && is_null dgr) ;;
  match type with
  | ov.SocketType.Srt | ov.SocketType.Tcp =>
      CreateServerSocket server type address send_buffer_size recv_buffer_size
  | ov.SocketType.Udp => CreateDatagramSocket datagram type address
  | ov.SocketType.Unknown => ret false
  end.

(** The statement after the loop of [proc]: [socket->Close()].  The [socket]
    the closure captured and the member the port keeps are one object, so the
    call acts on the member. *)
Definition loop_exit (body : EventLoop) : M S D unit :=
  match body with
  | ServerLoop =>
      let* srv := gets _server_socket in
      match srv with
      | Some s =>
          emit (SocketClose ByLoop) ;;
          modify (set_server_socket (Some (snd (ov.Close s))))
      | None => ret tt
      end
  | DatagramLoop =>
      let* dgr := gets _datagram_socket in
      match dgr with
      | Some d =>
          emit (SocketClose ByLoop) ;;
          modify (set_datagram_socket (Some (snd (ov.Close d))))
      | None => ret tt
      end
  end ;;
  modify (set_thread Finished).

(** [_thread.join()], called with [_need_to_stop] set, while the loop is
    idle: it waits in [DispatchEvent] with nothing to deliver, so it leaves at
    its next test of the flag and runs its exit statement.  The join that
    meets a call of [DispatchEvent] with events still to deliver is
    [join_in_flight]. *)
Definition join : M S D unit :=
  let* th := gets _thread in
  match th with
  | Looping body => loop_exit body
  | NoThread | Finished => ret tt
  end ;;
  emit ThreadJoined.

(** [(socket->GetState() == Closed) || (socket->Close())], on the server
    socket; the right operand runs only when the left one is false. *)
Definition server_closed_or_close (s : S) : M S D bool :=
  emit SocketGetState ;;
  if ov.SocketState.is_closed (ov.GetState s) then ret true
  else
    emit (SocketClose ByPort) ;;
    let '(closed, s) := ov.Close s in
    modify (set_server_socket (Some s)) ;;
    ret closed.

Definition datagram_closed_or_close (d : D) : M S D bool :=
  emit SocketGetState ;;
  if ov.SocketState.is_closed (ov.GetState d) then ret true
  else
    emit (SocketClose ByPort) ;;
    let '(closed, d) := ov.Close d in
    modify (set_datagram_socket (Some d)) ;;
    ret closed.

(** [PhysicalPort::Close] *)
Definition Close : M S D bool :=
  emit (StopFlag true) ;;
  modify (set_need_to_stop true) ;;
  stop_workers ;;
  emit WorkerListCleared ;;
  modify (set_worker_list []) ;;
  let* th := gets _thread in
  (if joinable th then join else ret tt) ;;
  modify (set_thread NoThread) ;;
  let* type := gets _type in
  match type with
  | ov.SocketType.Tcp =>
      let* srv := gets _server_socket in
      match srv with
      | Some s =>
          let* closed := server_closed_or_close s in
          if closed then
            modify (set_server_socket None) ;;
            emit ObserverListCleared ;;
            modify (set_observer_list []) ;;
            ret true
          else ret false
      | None => ret false
      end
  | ov.SocketType.Udp =>
      let* dgr := gets _datagram_socket in
      match dgr with
      | Some d =>
          let* closed := datagram_closed_or_close d in
          if closed then
            modify (set_datagram_socket None) ;;
            emit ObserverListCleared ;;
            modify (set_observer_list []) ;;
            ret true
          else ret false
      | None => crash NullPointer
      end
  | ov.SocketType.Srt | ov.SocketType.Unknown => ret false
  end.

(** [PhysicalPort::GetState] *)
Definition GetState : M S D ov.SocketState.t :=
  let* type := gets _type in
  match type with
  | ov.SocketType.Tcp =>
      let* srv := gets _server_socket in
      OV_ASSERT2 (negb (is_null srv)) ;;
      match srv with
      | Some s => ret (ov.GetState s)
      | None => crash NullPointer
      end
  | ov.SocketType.Udp =>
      let* dgr := gets _datagram_socket in
      OV_ASSERT2 (negb (is_null dgr)) ;;
      match dgr with
      | Some d => ret (ov.GetState d)
      | None => crash NullPointer
      end
  | ov.SocketType.Srt | ov.SocketType.Unknown => ret ov.SocketState.Closed
  end.

(** [PhysicalPort::AddObserver] *)
Definition AddObserver (observer : PhysicalPortObserver) : M S D bool :=
  modify (fun p => set_observer_list (_observer_list p ++ [observer]) p) ;;
  ret true.

(** [PhysicalPort::RemoveObserver]: [std::find] yields the first position
    that holds [observer], [erase] removes the element at that position. *)
Definition RemoveObserver (observer : PhysicalPortObserver) : M S D bool :=
  let* observers := gets _observer_list in
  match list_find (fun o => o = observer) observers with
  | None => ret false
  | Some (item, _) =>
      modify (set_observer_list (delete item observers)) ;;
      ret true
  end.

(** [for_each(_observer_list.begin(), _observer_list.end(), func)] *)
Definition for_each_observer (func : PhysicalPortObserver -> Notification)
  : M S D unit :=
  let* observers := gets _observer_list in
  emits (map (fun o => Notify (func o)) observers).

(** [client_callback] of the server loop. *)
Definition client_callback (client : ov.ClientSocket.t)
    (state : ov.SocketConnectionState.t) (error : option ov.Error)
  : M S D ov.SocketConnectionState.t :=
  match state with
  | ov.SocketConnectionState.Connected =>
      for_each_observer (fun o => OnConnected o client)
  | ov.SocketConnectionState.Disconnected =>
      for_each_observer (fun o =>
        OnDisconnected o client PhysicalPortDisconnectReason.Disconnected None)
  | ov.SocketConnectionState.Error =>
      for_each_observer (fun o =>
        OnDisconnected o client PhysicalPortDisconnectReason.Error error)
  end ;;
  ret state.

(** [client->GetSocket().GetSocket() % PHYSICAL_PORT_WORKER_COUNT]: the
    remainder of two [int]s, which truncates towards zero. *)
Definition worker_index (client : ov.ClientSocket.t) : Z :=
  Z.rem (ov.SocketWrapper.GetSocket (ov.ClientSocket.GetSocket client))
        PHYSICAL_PORT_WORKER_COUNT.

(** The [int] passed to [std::vector::at] converts to [size_t]. *)
Definition size_t_of_int (z : Z) : nat := Z.to_nat (z mod 2 ^ 64).

(** [data_callback] of the server loop: [at] throws past the end, and the
    task goes to the worker found. *)
Definition data_callback (client : ov.ClientSocket.t) (data : ov.Data)
  : M S D ov.SocketConnectionState.t :=
  let* workers := gets _worker_list in
  let index := size_t_of_int (worker_index client) in
  match workers !! index with
  | None => crash OutOfRange
  | Some worker =>
      emit (TaskAdded index (client, data)) ;;
      modify (set_worker_list
                (<[index := PhysicalPortWorker.AddTask client data worker]> workers)) ;;
      ret ov.SocketConnectionState.Connected
  end.

(** [data_callback] of the datagram loop. *)
Definition datagram_data_callback (remote_address : ov.SocketAddress)
    (data : ov.Data) : M S D bool :=
  for_each_observer (fun o => OnDataReceived o remote_address data) ;;
  ret true.

(** What one call of [ServerSocket::DispatchEvent] hands to the callbacks. *)
Inductive ServerEvent :=
| ConnectionEvent (client : ov.ClientSocket.t)
    (state : ov.SocketConnectionState.t) (error : option ov.Error)
| DataEvent (client : ov.ClientSocket.t) (data : ov.Data).

(** What one call of [DatagramSocket::DispatchEvent] hands to its callback. *)
Definition DatagramEvent : Type := ov.SocketAddress * ov.Data.

Definition on_server_event (e : ServerEvent) : M S D unit :=
  match e with
  | ConnectionEvent client state error =>
      client_callback client state error ;; ret tt
  | DataEvent client data => data_callback client data ;; ret tt
  end.

Definition on_datagram_event (e : DatagramEvent) : M S D unit :=
  datagram_data_callback (fst e) (snd e) ;; ret tt.

Fixpoint dispatch {E} (callback : E -> M S D unit) (events : list E)
  : M S D unit :=
  match events with
  | [] => ret tt
  | e :: events => callback e ;; dispatch callback events
  end.

(** The body [proc] of the thread.  [DispatchEvent] belongs to the socket
    library: each entry of [script] is what one call of it delivers and the
    [bool] it returns.  The loop tests [_need_to_stop] first; when the script
    is used up the thread is waiting in [DispatchEvent]. *)
Fixpoint proc {E} (body : EventLoop) (callback : E -> M S D unit)
    (script : list (list E * bool)) : M S D unit :=
  let* stop := gets _need_to_stop in
  if stop then loop_exit body
  else
    match script with
    | [] => ret tt
    | (events, continue) :: script =>
        dispatch callback events ;;
        if continue then proc body callback script else loop_exit body
    end.

Definition server_proc := proc ServerLoop on_server_event.
Definition datagram_proc := proc DatagramLoop on_datagram_event.

End Members.

Section Lifetime.

Context {S D : Type} `{ov.ServerSocket S} `{ov.DatagramSocket D}.

(** [PhysicalPort::DisconnectClient]: the call goes through [_server_socket]
    with no test of the pointer. *)
Definition DisconnectClient `{ov.ClientDisconnect S}
    (client_socket : ov.ClientSocket.t) : M S D bool :=
  let* srv := gets _server_socket in
  match srv with
  | None => crash NullPointer
  | Some s =>
      let '(disconnected, s) :=
        ov.DisconnectClient s client_socket ov.SocketConnectionState.Disconnected in
      modify (set_server_socket (Some s)) ;;
      ret disconnected
  end.

(** [PhysicalPort::~PhysicalPort]: the body asserts that no observer is left;
    then the members are destroyed, and the destructor of a [std::thread]
    that is still joinable calls [std::terminate]. *)
Definition Destroy (assert_is_fatal : bool) : M S D unit :=
  let* observers := gets _observer_list in
  OV_ASSERT2 assert_is_fatal (bool_decide (observers = [])) ;;
  let* th := gets _thread in
  if joinable th then crash Terminate else ret tt.



End Lifetime.

End PhysicalPort.

(** ** A transport primitive to run the port on

    A socket that answers [Prepare] and [Close] as it was told to. *)

Module TestSocket.

Record t := {
  state : ov.SocketState.t;
  prepare_answer : bool;
  close_answer : bool;
}.

Definition Prepare (s : t) : bool * t :=
  if prepare_answer s
  then (true, {| state := ov.SocketState.Other 0;
                 prepare_answer := prepare_answer s;
                 close_answer := close_answer s |})
  else (false, s).

Definition Close (s : t) : bool * t :=
  if close_answer s
  then (true, {| state := ov.SocketState.Closed;
                 prepare_answer := prepare_answer s;
                 close_answer := close_answer s |})
  else (false, s).

#[global] Instance socket : ov.Socket t :=
  {| ov.GetState := state; ov.Close := Close |}.
#[global] Instance server : ov.ServerSocket t :=
  {| ov.Prepare := fun s _ _ _ _ _ => Prepare s |}.
#[global] Instance datagram : ov.DatagramSocket t :=
  {| ov.PrepareDatagram := fun s _ => Prepare s |}.

(** A socket that binds and closes, and one that cannot bind. *)
Definition good : t :=
  {| state := ov.SocketState.Other 0; prepare_answer := true; close_answer := true |}.
Definition unbindable : t :=
  {| state := ov.SocketState.Other 0; prepare_answer := false; close_answer := true |}.

#[global] Instance disconnect : ov.ClientDisconnect t :=
  {| ov.DisconnectClient := fun s _ _ => (true, s) |}.

(** A socket that binds and then refuses to close. *)
Definition stuck : t :=
  {| state := ov.SocketState.Other 0; prepare_answer := true; close_answer := false |}.

End TestSocket.

(** ** Ports to run the member functions on *)

Module Examples.

Import PhysicalPort.

Definition address : ov.SocketAddress :=
  {| ov.host := "0.0.0.0"; ov.port := 9000 |}.

Definition Port : Type := PhysicalPort.t TestSocket.t TestSocket.t.

(** A port as constructed, with observer [7] registered. *)
Definition closed_port : Port := set_observer_list [7%nat] make.

(** The port after a successful [Create] of the given kind. *)
Definition created (type : ov.SocketType.t) : Port :=
  match
    Create true TestSocket.good TestSocket.good type address 0 0 closed_port
  with
  | Done (_, p) _ => p
  | Crash _ => closed_port
  end.

(** The port after a successful [Create] on a primitive that will refuse
    to close. *)
Definition created_stuck (type : ov.SocketType.t) : Port :=
  match
    Create true TestSocket.stuck TestSocket.stuck type address 0 0 closed_port
  with
  | Done (_, p) _ => p
  | Crash _ => closed_port
  end.

(** Connections with descriptors 37, 5 and -1. *)
Definition client37 : ov.ClientSocket.t :=
  {| ov.ClientSocket.GetSocket := {| ov.SocketWrapper.GetSocket := 37 |} |}.
Definition client5 : ov.ClientSocket.t :=
  {| ov.ClientSocket.GetSocket := {| ov.SocketWrapper.GetSocket := 5 |} |}.
Definition invalid_client : ov.ClientSocket.t :=
  {| ov.ClientSocket.GetSocket := {| ov.SocketWrapper.GetSocket := -1 |} |}.

End Examples.

(** * Vocabulary of the statements *)

Import PhysicalPort.

(** The pool after the two loops at the top of [CreateServerSocket]. *)
Definition started_pool (workers : list PhysicalPortWorker.t)
  : list PhysicalPortWorker.t :=
  map PhysicalPortWorker.Start
      (workers ++ replicate (Z.to_nat PHYSICAL_PORT_WORKER_COUNT) PhysicalPortWorker.make).

(** What [CreateServerSocket] has logged when [Prepare] returns. *)
Definition startup_log (workers : list PhysicalPortWorker.t)
    (type : ov.SocketType.t) (address : ov.SocketAddress) : list Event :=
  replicate (Z.to_nat PHYSICAL_PORT_WORKER_COUNT) WorkerCreated
  ++ map WorkerStart (seq 0 (length (started_pool workers)))
  ++ [SocketPrepare type address].

(** The observer an event notifies, if it is a notification. *)
Definition addressee (e : Event) : option PhysicalPortObserver :=
  match e with
  | Notify (OnConnected o _) | Notify (OnDisconnected o _ _ _)
  | Notify (OnDataReceived o _ _) => Some o
  | _ => None
  end.

(** How many notifications of a log go to [observer]. *)
Definition notified (observer : PhysicalPortObserver) (log : list Event) : nat :=
  length (filter (fun e => addressee e = Some observer) log).

(** How many entries of an observer list hold [observer]. *)
Definition registrations (observer : PhysicalPortObserver)
    (observers : list PhysicalPortObserver) : nat :=
  length (filter (fun o => o = observer) observers).

(** The notification [client_callback] sends for each connection state. *)
Definition lifecycle_notification (client : ov.ClientSocket.t)
    (state : ov.SocketConnectionState.t) (error : option ov.Error)
    (o : PhysicalPortObserver) : Notification :=
  match state with
  | ov.SocketConnectionState.Connected => OnConnected o client
  | ov.SocketConnectionState.Disconnected =>
      OnDisconnected o client PhysicalPortDisconnectReason.Disconnected None
  | ov.SocketConnectionState.Error =>
      OnDisconnected o client PhysicalPortDisconnectReason.Error error
  end.

(** The events the loop hands to its callback: those of every call of
    [DispatchEvent] up to and including the first one that returns false. *)
Fixpoint delivered {E} (script : list (list E * bool)) : list E :=
  match script with
  | [] => []
  | (events, continue) :: script =>
      events ++ (if continue then delivered script else [])
  end.

(** Whether some call of [DispatchEvent] of the script returns false. *)
Fixpoint returns_false {E} (script : list (list E * bool)) : bool :=
  match script with
  | [] => false
  | (_, continue) :: script => if continue then returns_false script else true
  end.

(** One [OnDataReceived] per entry of the observer list, in list order. *)
Definition datagram_fan_out (observers : list PhysicalPortObserver)
    (e : DatagramEvent) : list Event :=
  map (fun o => Notify (OnDataReceived o (fst e) (snd e))) observers.

(** What can happen to a port between two calls: a caller uses one of the
    public member functions, or the thread runs its body for the calls of
    [DispatchEvent] of a script.  The thread runs [proc] only while it is
    [Looping]. *)
Inductive Call (S D : Type) :=
| CallCreate (server : S) (datagram : D) (type : ov.SocketType.t)
    (address : ov.SocketAddress) (send_buffer_size recv_buffer_size : Z)
| CallClose
| CallGetState
| CallAddObserver (observer : PhysicalPortObserver)
| CallRemoveObserver (observer : PhysicalPortObserver)
| ServerLoopRuns (script : list (list ServerEvent * bool))
| DatagramLoopRuns (script : list (list DatagramEvent * bool)).
Arguments CallCreate {S D}.
Arguments CallClose {S D}.
Arguments CallGetState {S D}.
Arguments CallAddObserver {S D}.
Arguments CallRemoveObserver {S D}.
Arguments ServerLoopRuns {S D}.
Arguments DatagramLoopRuns {S D}.

Definition call {S D : Type} `{ov.ServerSocket S} `{ov.DatagramSocket D}
    (assert_is_fatal : bool) (c : Call S D) (p : t S D) : Outcome (t S D) :=
  let state_of {A} (o : Outcome (A * t S D)) : Outcome (t S D) :=
    match o with
    | Done (_, p') log => Done p' log
    | Crash f => Crash f
    end in
  match c with
  | CallCreate server datagram type address sb rb =>
      state_of (Create assert_is_fatal server datagram type address sb rb p)
  | CallClose => state_of (Close p)
  | CallGetState => state_of (GetState assert_is_fatal p)
  | CallAddObserver observer => state_of (AddObserver observer p)
  | CallRemoveObserver observer => state_of (RemoveObserver observer p)
  | ServerLoopRuns script =>
      match _thread p with
      | Looping ServerLoop => state_of (server_proc script p)
      | _ => Done p []
      end
  | DatagramLoopRuns script =>
      match _thread p with
      | Looping DatagramLoop => state_of (datagram_proc script p)
      | _ => Done p []
      end
  end.

(** The ports a program can get to from the constructor. *)
Inductive reachable {S D : Type} `{ov.ServerSocket S} `{ov.DatagramSocket D}
    (assert_is_fatal : bool) : t S D -> Prop :=
| reachable_make : reachable assert_is_fatal make
| reachable_call p c p' log :
    reachable assert_is_fatal p ->
    call assert_is_fatal c p = Done p' log ->
    reachable assert_is_fatal p'.

Definition stream_kind (type : ov.SocketType.t) : bool :=
  match type with
  | ov.SocketType.Tcp | ov.SocketType.Srt => true
  | ov.SocketType.Udp | ov.SocketType.Unknown => false
  end.

(** The socket a thread body works on is there, and of the kind of the port. *)
Definition thread_has_socket {S D : Type} (p : t S D) : Prop :=
  match _thread p with
  | NoThread => True
  | Looping ServerLoop =>
      stream_kind (_type p) = true /\ _server_socket p <> None
  | Looping DatagramLoop =>
      _type p = ov.SocketType.Udp /\ _datagram_socket p <> None
  | Finished =>
      (stream_kind (_type p) = true /\ _server_socket p <> None)
      \/ (_type p = ov.SocketType.Udp /\ _datagram_socket p <> None)
  end.

(** What holds of a port between calls. *)
Record consistent {S D : Type} (p : t S D) : Prop := {
  consistent_thread : thread_has_socket p;
  consistent_pool :
    exists k, length (_worker_list p) = (k * 16)%nat;
  consistent_running :
    Forall (fun w => PhysicalPortWorker.running w = true) (_worker_list p);
  consistent_flag : _need_to_stop p = false -> _thread p <> NoThread;
  consistent_unknown :
    _type p = ov.SocketType.Unknown ->
    _server_socket p = None /\ _datagram_socket p = None /\ _thread p = NoThread;
}.

#[global] Instance SocketWrapper_eq_dec : EqDecision ov.SocketWrapper.t.
Proof. solve_decision. Defined.

#[global] Instance ClientSocket_eq_dec : EqDecision ov.ClientSocket.t.
Proof. solve_decision. Defined.

(** The position in the pool the data callback looks up for a connection. *)
Definition task_index (client : ov.ClientSocket.t) : nat :=
  size_t_of_int (worker_index client).

(** The tasks of the data events of a list, in the order of the list. *)
Definition data_tasks (events : list ServerEvent) : list PhysicalPortWorker.Task :=
  flat_map (fun e => match e with
                     | DataEvent client data => [(client, data)]
                     | ConnectionEvent _ _ _ => []
                     end) events.

(** Those of them that go to the worker at [index]. *)
Definition tasks_for (index : nat) (events : list ServerEvent)
  : list PhysicalPortWorker.Task :=
  filter (fun task => task_index (fst task) = index) (data_tasks events).

(** What the server loop logs for one event: the fan-out of a connection
    event, or the hand-over of a task. *)
Definition server_event_log (observers : list PhysicalPortObserver)
    (e : ServerEvent) : list Event :=
  match e with
  | ConnectionEvent client state error =>
      map (fun o => Notify (lifecycle_notification client state error o)) observers
  | DataEvent client data => [TaskAdded (task_index client) (client, data)]
  end.

(** * Properties of the member functions *)

Ltac unfold_monad :=
  unfold bind, ret, emit, emits, gets, modify, crash in *.

Ltac unfold_members :=
  unfold Create, CreateServerSocket, CreateDatagramSocket, Close, GetState,
    join, loop_exit, start_workers, stop_workers, start_thread,
    server_closed_or_close, datagram_closed_or_close, OV_ASSERT2,
    AddObserver, RemoveObserver, for_each_observer in *.

(** Case analysis on what the transport primitive answers. *)
Ltac case_socket :=
  repeat match goal with
  | |- context [ov.SocketState.is_closed ?x] =>
      destruct (ov.SocketState.is_closed x) eqn:?; simpl
  | |- context [ov.Close ?x] =>
      destruct (ov.Close x) as [[] ?] eqn:?; simpl
  end.

Section CreateProperties.

Context {S D : Type} `{ov.ServerSocket S} `{ov.DatagramSocket D}.

Lemma emplace_workers_run (n : nat) (p : t S D) :
  emplace_workers n p =
  Done (tt, set_worker_list (_worker_list p ++ replicate n PhysicalPortWorker.make) p)
       (replicate n WorkerCreated).
Proof.
  revert p. induction n as [|n IH]; intros p; simpl.
  - unfold ret. rewrite app_nil_r. by destruct p.
  - unfold_monad. rewrite IH. simpl. by rewrite <- app_assoc.
Qed.

Lemma started_pool_length workers :
  length (started_pool workers) = (length workers + 16)%nat.
Proof.
  unfold started_pool. by rewrite length_map, length_app, length_replicate.
Qed.

Lemma started_pool_running workers :
  Forall (fun w => PhysicalPortWorker.running w = true) (started_pool workers).
Proof. unfold started_pool. apply Forall_forall. intros w Hw.
  apply list_elem_of_fmap in Hw as (w' & -> & _). done.
Qed.

Lemma startup_log_events workers type address (e : Event) :
  e ∈ startup_log workers type address ->
  e = WorkerCreated \/ (exists index, e = WorkerStart index)
  \/ e = SocketPrepare type address.
Proof.
  unfold startup_log.
  rewrite !elem_of_app, elem_of_replicate, list_elem_of_fmap, list_elem_of_singleton.
  intros [[-> _] | [(index & -> & _) | ->]]; eauto.
Qed.

(** [CreateServerSocket], one equation per outcome of [Prepare]. *)
Lemma CreateServerSocket_run (socket : S) type address sb rb (p : t S D) :
  CreateServerSocket socket type address sb rb p =
  let workers := started_pool (_worker_list p) in
  let log := startup_log (_worker_list p) type address in
  let '(prepared, socket') := ov.Prepare socket type address sb rb 4096 in
  if prepared then
    if joinable (_thread p) then Crash Terminate
    else
      Done (true,
            {| _type := type; _address := address;
               _server_socket := Some socket';
               _datagram_socket := _datagram_socket p;
               _need_to_stop := false; _thread := Looping ServerLoop;
               _worker_list := workers; _observer_list := _observer_list p |})
           (log ++ [StopFlag false; ThreadStarted ServerLoop])
  else Done (false, set_worker_list workers p) log.
Proof.
  unfold CreateServerSocket, bind at 1.
  rewrite emplace_workers_run.
  unfold startup_log, started_pool, start_workers, start_thread.
  rewrite length_map, <- imap_seq_0.
  destruct p as [ty addr srv dgr stop th ws os]; unfold_monad; simpl.
  destruct (ov.Prepare socket type address sb rb 4096) as [[] socket']; simpl.
  - destruct th as [|[]|]; simpl; try done.
    f_equal. rewrite app_nil_r, <- !app_assoc. done.
  - f_equal. rewrite !app_nil_r. done.
Qed.

(** [Create] on a port whose two sockets are null and a stream kind is
    [CreateServerSocket]: the assertion passes. *)
Lemma Create_stream fatal (server : S) (datagram : D) type address sb rb
    (p : t S D) :
  type = ov.SocketType.Tcp \/ type = ov.SocketType.Srt ->
  _server_socket p = None -> _datagram_socket p = None ->
  Create fatal server datagram type address sb rb p =
  CreateServerSocket server type address sb rb p.
Proof.
  intros Htype Hsrv Hdgr. unfold Create, OV_ASSERT2. unfold_monad.
  rewrite Hsrv, Hdgr. simpl.
  destruct Htype as [-> | ->];
    by destruct (CreateServerSocket server _ address sb rb p) as [[]|].
Qed.

(** C1, as the code has it: when [Prepare] returns false for a stream kind,
    [Create] returns false and starts no event-loop thread, but it returns
    with the sixteen workers it created still in [_worker_list], every one of
    them started and none of them stopped. *)
Theorem Create_prepare_failure_keeps_workers
    fatal (server : S) (datagram : D) type address sb rb (p : t S D) :
  type = ov.SocketType.Tcp \/ type = ov.SocketType.Srt ->
  _server_socket p = None -> _datagram_socket p = None ->
  fst (ov.Prepare server type address sb rb 4096) = false ->
  exists p' log,
    Create fatal server datagram type address sb rb p = Done (false, p') log
    /\ _worker_list p' = started_pool (_worker_list p)
    /\ length (_worker_list p') = (length (_worker_list p) + 16)%nat
    /\ Forall (fun w => PhysicalPortWorker.running w = true) (_worker_list p')
    /\ (forall index, WorkerStop index ∉ log)
    /\ (WorkerListCleared ∉ log)
    /\ (forall body, ThreadStarted body ∉ log)
    /\ _thread p' = _thread p.
Proof.
  intros Htype Hsrv Hdgr Hprepare.
  rewrite Create_stream, CreateServerSocket_run by done.
  destruct (ov.Prepare server type address sb rb 4096) as [prepared socket'].
  simpl in Hprepare. subst prepared. cbv zeta. simpl.
  eexists _, _. split; [reflexivity|]. simpl.
  split_and!; try done.
  - apply started_pool_length.
  - apply started_pool_running.
  - intros index Hin. by apply startup_log_events in Hin as [?|[[? ?]|?]].
  - intros Hin. by apply startup_log_events in Hin as [?|[[? ?]|?]].
  - intros body Hin. by apply startup_log_events in Hin as [?|[[? ?]|?]].
Qed.


(** C7: a [Create] of a stream kind (Tcp) or reliable-datagram kind (Srt)
    that returns true has constructed exactly sixteen workers, then started
    every worker of the pool, and only then called [Prepare], which returned
    true; after it the stop flag is cleared and the event-loop thread is
    started, the address is recorded, and the pool holds the started workers.
    Such a [Create] does return true whenever it is called on a closed port
    (no socket, no thread) and [Prepare] succeeds. *)
Theorem Create_stream_success
    fatal (server : S) (datagram : D) type address sb rb (p : t S D) :
  type = ov.SocketType.Tcp \/ type = ov.SocketType.Srt ->
  (forall p' log,
     Create fatal server datagram type address sb rb p = Done (true, p') log ->
     log = replicate 16 WorkerCreated
           ++ map WorkerStart (seq 0 (length (_worker_list p) + 16))
           ++ [SocketPrepare type address; StopFlag false; ThreadStarted ServerLoop]
     /\ fst (ov.Prepare server type address sb rb 4096) = true
     /\ _worker_list p' = started_pool (_worker_list p)
     /\ Forall (fun w => PhysicalPortWorker.running w = true) (_worker_list p')
     /\ _need_to_stop p' = false
     /\ _address p' = address
     /\ _thread p' = Looping ServerLoop
     /\ _type p' = type
     /\ _server_socket p' = Some (snd (ov.Prepare server type address sb rb 4096)))
  /\ (_server_socket p = None -> _datagram_socket p = None ->
      _thread p = NoThread ->
      fst (ov.Prepare server type address sb rb 4096) = true ->
      exists p' log,
        Create fatal server datagram type address sb rb p = Done (true, p') log
        /\ length (_worker_list p') = (length (_worker_list p) + 16)%nat).
Proof.
  intros Htype. split.
  - intros p' log. unfold Create at 1. unfold OV_ASSERT2. unfold_monad.
    assert (Hbody : forall l0,
      match CreateServerSocket server type address sb rb p with
      | Done r l2 => Done r (l0 ++ l2)
      | Crash f => Crash f
      end = Done (true, p') log ->
      l0 ++ startup_log (_worker_list p) type address
         ++ [StopFlag false; ThreadStarted ServerLoop] = log
      /\ fst (ov.Prepare server type address sb rb 4096) = true
      /\ p' = {| _type := type; _address := address;
                 _server_socket := Some (snd (ov.Prepare server type address sb rb 4096));
                 _datagram_socket := _datagram_socket p;
                 _need_to_stop := false; _thread := Looping ServerLoop;
                 _worker_list := started_pool (_worker_list p);
                 _observer_list := _observer_list p |}).
    { intros l0. rewrite CreateServerSocket_run. cbv zeta.
      destruct (ov.Prepare server type address sb rb 4096) as [[] socket'];
        simpl; [|discriminate].
      destruct (joinable (_thread p)); [discriminate|].
      intros [= <- <-]. done. }
    intros Hrun.
    assert (Hrun' : [] ++ startup_log (_worker_list p) type address
                       ++ [StopFlag false; ThreadStarted ServerLoop] = log
      /\ fst (ov.Prepare server type address sb rb 4096) = true
      /\ p' = {| _type := type; _address := address;
                 _server_socket := Some (snd (ov.Prepare server type address sb rb 4096));
                 _datagram_socket := _datagram_socket p;
                 _need_to_stop := false; _thread := Looping ServerLoop;
                 _worker_list := started_pool (_worker_list p);
                 _observer_list := _observer_list p |}).
    { apply Hbody. revert Hrun. simpl.
      destruct (is_null (_server_socket p) && is_null (_datagram_socket p)),
        fatal; simpl; try discriminate;
        destruct Htype as [-> | ->];
        by destruct (CreateServerSocket server _ address sb rb p) as [[]|]. }
    destruct Hrun' as (<- & Hprepare & ->). simpl.
    split_and!; try done.
    + unfold startup_log. rewrite started_pool_length, <- !app_assoc. done.
    + apply started_pool_running.
  - intros Hsrv Hdgr Hthread Hprepare.
    rewrite Create_stream, CreateServerSocket_run by done.
    destruct (ov.Prepare server type address sb rb 4096) as [prepared socket'].
    simpl in Hprepare. subst prepared. rewrite Hthread. cbv zeta. simpl.
    eexists _, _. split; [reflexivity|]. simpl. apply started_pool_length.
Qed.

End CreateProperties.

(** The failing call of C1 on a port as constructed: sixteen running workers
    are left behind by the [Create] that returned false. *)
Lemma Create_prepare_failure_keeps_workers_witness :
  exists p' log,
    Create true TestSocket.unbindable TestSocket.good ov.SocketType.Tcp
      Examples.address 0 0 Examples.closed_port = Done (false, p') log
    /\ length (_worker_list p') = 16%nat
    /\ Forall (fun w => PhysicalPortWorker.running w = true) (_worker_list p').
Proof.
  destruct (Create_prepare_failure_keeps_workers true TestSocket.unbindable
              TestSocket.good ov.SocketType.Tcp Examples.address 0 0
              Examples.closed_port)
    as (p' & log & Hrun & _ & Hlen & Hrunning & _); [by left|done|done|done|].
  exists p', log. split_and!; done.
Defined.

(** C7 on a port as constructed: [Create] of a Tcp endpoint returns true
    with a pool of sixteen running workers. *)
Lemma Create_stream_success_witness :
  exists p' log,
    Create true TestSocket.good TestSocket.good ov.SocketType.Tcp
      Examples.address 0 0 Examples.closed_port = Done (true, p') log
    /\ length (_worker_list p') = 16%nat
    /\ _need_to_stop p' = false
    /\ _thread p' = Looping ServerLoop.
Proof.
  destruct (Create_stream_success true TestSocket.good TestSocket.good
              ov.SocketType.Tcp Examples.address 0 0 Examples.closed_port)
    as [Hshape Hreturns]; [by left|].
  destruct Hreturns as (p' & log & Hrun & Hlen); [done..|].
  exists p', log.
  destruct (Hshape p' log Hrun) as (_ & _ & _ & _ & Hstop & _ & Hthread & _).
  split_and!; done.
Defined.


Section CreateOnActivePort.

Context {S D : Type} `{ov.ServerSocket S} `{ov.DatagramSocket D}.


End CreateOnActivePort.


Lemma stop_log_events (workers : list PhysicalPortWorker.t) (e : Event) :
  e ∈ imap (fun index _ => WorkerStop index) workers ->
  exists index, e = WorkerStop index.
Proof.
  intros Hin. apply list_elem_of_lookup in Hin as [i Hi].
  rewrite list_lookup_imap in Hi.
  destruct (workers !! i); simplify_eq/=. eauto.
Qed.

(** An event that is none of those a log is made of is not in the log. *)
Ltac not_logged_in Hin :=
  first
    [ apply elem_of_nil in Hin; destruct Hin
    | apply elem_of_cons in Hin as [Hin|Hin];
      [discriminate Hin | not_logged_in Hin]
    | apply elem_of_app in Hin as [Hin|Hin];
      [not_logged_in Hin | not_logged_in Hin]
    | apply stop_log_events in Hin as [? Hin]; discriminate Hin ].

Ltac not_logged :=
  let Hin := fresh "Hin" in intros Hin; not_logged_in Hin.

Section CloseProperties.

Context {S D : Type} `{ov.ServerSocket S} `{ov.DatagramSocket D}.

(** C2, as the code has it: [Close] returns true only on the Tcp and Udp
    paths, where it resets the socket pointer and leaves [_type] as it was.
    [GetState] then takes the same case of its switch and meets the null
    pointer: it fails its own assertion, or dereferences null where the
    assertion has no effect.  It never returns [Closed]. *)
Theorem GetState_after_Close_true
    (fatal : bool) (p p' : t S D) (log : list Event) :
  Close p = Done (true, p') log ->
  GetState fatal p' = Crash (if fatal then AssertionFailed else NullPointer).
Proof.
  destruct p as [ty addr srv dgr stop th ws os].
  unfold_members; unfold_monad.
  destruct th as [|[]|], ty, srv as [s|], dgr as [d|]; simpl; try discriminate.
  all: case_socket; try discriminate.
  all: intros [=]; subst; simpl; by destruct fatal.
Qed.

(** C4, as the code has it: the switch of [Close] has no case for Srt, the
    kind [Create] opens through the same path as Tcp.  On such a port [Close]
    stops the workers and joins the thread, then returns false without asking
    the primitive for its state and without closing it, whatever the
    primitive reports; the observer list and the socket pointer stay. *)
Theorem Close_Srt_returns_false (p : t S D) :
  _type p = ov.SocketType.Srt ->
  exists p' log,
    Close p = Done (false, p') log
    /\ _observer_list p' = _observer_list p
    /\ is_null (_server_socket p') = is_null (_server_socket p)
    /\ (forall s, _server_socket p = Some s -> _thread p = Looping ServerLoop ->
        _server_socket p' = Some (snd (ov.Close s)))
    /\ (SocketGetState ∉ log)
    /\ (SocketClose ByPort ∉ log)
    /\ (ObserverListCleared ∉ log).
Proof.
  destruct p as [ty addr srv dgr stop th ws os]. simpl. intros ->.
  unfold_members; unfold_monad.
  destruct th as [|[]|], srv as [s|], dgr as [d|]; simpl.
  all: eexists _, _; split; [reflexivity|]; simpl.
  all: split_and!; try done.
  all: try by intros ? [=].
  all: try by intros ? [= <-].
  all: by not_logged.
Qed.


(** X2: on the Tcp path with a socket, the result of [Close] is what the
    primitive reports after the join: it is closed already, or its [Close]
    returns true. *)
Lemma Close_Tcp_result (p p' : t S D) (s : S) (r : bool) (log : list Event) :
  _type p = ov.SocketType.Tcp -> _server_socket p = Some s ->
  Close p = Done (r, p') log ->
  let s1 := match _thread p with
            | Looping ServerLoop => snd (ov.Close s)
            | _ => s
            end in
  r = ov.SocketState.is_closed (ov.GetState s1) || fst (ov.Close s1)
  /\ _server_socket p' = (if r then None else Some (snd (ov.Close s1))).
Proof.
  destruct p as [ty addr srv dgr stop th ws os]. simpl. intros -> ->.
  unfold_members; unfold_monad.
  destruct th as [|[]|], dgr as [d|]; simpl.
  all: case_socket.
  all: by intros [= <- <- <-].
Qed.

End CloseProperties.

(** The failing scenario of C2: a Tcp port is created, [Close] returns true,
    and [GetState] fails the assertion on the pointer [Close] reset. *)
Lemma GetState_after_Close_true_witness :
  exists p' log,
    Close (Examples.created ov.SocketType.Tcp) = Done (true, p') log
    /\ GetState true p' = Crash AssertionFailed
    /\ GetState false p' = Crash NullPointer.
Proof.
  eexists _, _. split; [by vm_compute|].
  split.
  - eapply (GetState_after_Close_true true (Examples.created ov.SocketType.Tcp)).
    by vm_compute.
  - eapply (GetState_after_Close_true false (Examples.created ov.SocketType.Tcp)).
    by vm_compute.
Defined.

(** The failing scenario of C4: on a port created with kind Srt, [Close]
    returns false although the primitive, closed by the loop on its way out,
    reports [Closed]; the observer stays registered. *)
Lemma Close_Srt_returns_false_witness :
  _type (Examples.created ov.SocketType.Srt) = ov.SocketType.Srt
  /\ exists p' log s,
       Close (Examples.created ov.SocketType.Srt) = Done (false, p') log
       /\ _server_socket p' = Some s
       /\ ov.GetState s = ov.SocketState.Closed
       /\ _observer_list p' = [7%nat].
Proof.
  split; [by vm_compute|].
  destruct (Close_Srt_returns_false (Examples.created ov.SocketType.Srt))
    as (p' & log & Hrun & Hobs & _ & Hsock & _); [by vm_compute|].
  eexists p', log, _. split; [exact Hrun|].
  split; [apply Hsock; by vm_compute|].
  split; [by vm_compute|].
  rewrite Hobs. by vm_compute.
Defined.

(** ** Observers and fan-out *)

Lemma registrations_app o (l1 l2 : list PhysicalPortObserver) :
  registrations o (l1 ++ l2) = (registrations o l1 + registrations o l2)%nat.
Proof. unfold registrations. by rewrite filter_app, length_app. Qed.

Lemma registrations_cons o x (l : list PhysicalPortObserver) :
  registrations o (x :: l)
  = if decide (x = o) then Datatypes.S (registrations o l) else registrations o l.
Proof. unfold registrations. rewrite filter_cons. by case_decide. Qed.

Lemma notified_fan_out (func : PhysicalPortObserver -> Notification)
    (observers : list PhysicalPortObserver) (o : PhysicalPortObserver) :
  (forall x, addressee (Notify (func x)) = Some x) ->
  notified o (map (fun x => Notify (func x)) observers) = registrations o observers.
Proof.
  intros Hfunc. unfold notified, registrations.
  induction observers as [|x l IH]; [done|]. simpl.
  rewrite !filter_cons, Hfunc.
  destruct (decide (Some x = Some o)) as [[= ->]|Hne].
  - rewrite decide_True by done. simpl. by rewrite IH.
  - rewrite decide_False by congruence. done.
Qed.

(** [std::find] followed by [erase], on the list itself. *)
Lemma find_erase (observer : PhysicalPortObserver)
    (observers : list PhysicalPortObserver) :
  observer ∈ observers ->
  exists item before after,
    list_find (fun o => o = observer) observers = Some (item, observer)
    /\ observers = before ++ observer :: after
    /\ (observer ∉ before)
    /\ delete item observers = before ++ after.
Proof.
  intros Hin.
  destruct (list_find_elem_of (fun o => o = observer) observers observer)
    as [[item x] Hfind]; [done..|].
  pose proof Hfind as Hfound.
  apply list_find_Some in Hfound as (Hlookup & -> & Hfirst).
  exists item, (take item observers), (drop (Datatypes.S item) observers).
  split_and!.
  - done.
  - by rewrite take_drop_middle.
  - intros Hbefore. apply list_elem_of_lookup in Hbefore as [j Hj].
    pose proof (lookup_lt_Some _ _ _ Hj) as Hlt.
    rewrite length_take in Hlt.
    rewrite lookup_take_lt in Hj by lia.
    by apply (Hfirst j observer); [|lia|].
  - apply delete_take_drop.
Qed.

Section ObserverProperties.

Context {S D : Type} `{ov.ServerSocket S} `{ov.DatagramSocket D}.

(** C6: [RemoveObserver] of an observer that is not in the list returns false
    and changes nothing; of a registered one it returns true and removes the
    first entry that holds it, every other entry staying where it is. *)
Theorem RemoveObserver_spec
    (observer : PhysicalPortObserver) (p : t S D) :
  (observer ∉ _observer_list p ->
   RemoveObserver observer p = Done (false, p) [])
  /\ (observer ∈ _observer_list p ->
      exists before after,
        _observer_list p = before ++ observer :: after
        /\ (observer ∉ before)
        /\ RemoveObserver observer p
           = Done (true, set_observer_list (before ++ after) p) []
        /\ filter (fun o => o <> observer) (before ++ after)
           = filter (fun o => o <> observer) (_observer_list p)).
Proof.
  split.
  - intros Hnotin. unfold RemoveObserver. unfold_monad.
    assert (Hfind : list_find (fun o => o = observer) (_observer_list p) = None).
    { apply list_find_None, Forall_forall. intros o Ho ->. done. }
    by rewrite Hfind.
  - intros Hin.
    destruct (find_erase observer (_observer_list p) Hin)
      as (item & before & after & Hfind & Hsplit & Hbefore & Hdelete).
    exists before, after. split_and!; try done.
    + unfold RemoveObserver. unfold_monad. rewrite Hfind. simpl.
      by rewrite Hdelete.
    + rewrite Hsplit, !filter_app, filter_cons.
      by rewrite decide_False by (intros Hne; by apply Hne).
Qed.

(** C10: [AddObserver] appends whatever it is given and returns true, so an
    observer registered again is in the list once more; a fan-out sends one
    notification per entry of the list, and one [RemoveObserver] takes away
    one entry of the observer and none of any other. *)
Theorem AddObserver_admits_duplicates
    (observer : PhysicalPortObserver) (p : t S D) :
  AddObserver observer p
  = Done (true, set_observer_list (_observer_list p ++ [observer]) p) []
  /\ registrations observer (_observer_list p ++ [observer])
     = Datatypes.S (registrations observer (_observer_list p))
  /\ (forall client state error,
        client_callback client state error p
        = Done (state, p)
               (map (fun o => Notify (lifecycle_notification client state error o))
                    (_observer_list p))
        /\ forall o,
             notified o
               (map (fun o => Notify (lifecycle_notification client state error o))
                    (_observer_list p))
             = registrations o (_observer_list p))
  /\ (forall remote_address data,
        datagram_data_callback remote_address data p
        = Done (true, p)
               (map (fun o => Notify (OnDataReceived o remote_address data))
                    (_observer_list p))
        /\ forall o,
             notified o
               (map (fun o => Notify (OnDataReceived o remote_address data))
                    (_observer_list p))
             = registrations o (_observer_list p))
  /\ (observer ∈ _observer_list p ->
      exists p',
        RemoveObserver observer p = Done (true, p') []
        /\ Datatypes.S (registrations observer (_observer_list p'))
           = registrations observer (_observer_list p)
        /\ forall o, o <> observer ->
             registrations o (_observer_list p')
             = registrations o (_observer_list p)).
Proof.
  split_and!.
  - done.
  - rewrite registrations_app, registrations_cons, decide_True by done.
    change (registrations observer []) with 0%nat. lia.
  - intros client state error. split.
    + unfold client_callback, for_each_observer. unfold_monad.
      destruct state; simpl; by rewrite app_nil_r.
    + intros o. apply (notified_fan_out (lifecycle_notification client state error)).
      intros x. by destruct state.
  - intros remote_address data. split.
    + unfold datagram_data_callback, for_each_observer. unfold_monad.
      simpl. by rewrite app_nil_r.
    + intros o.
      by apply (notified_fan_out (fun o => OnDataReceived o remote_address data)).
  - intros Hin.
    destruct (find_erase observer (_observer_list p) Hin)
      as (item & before & after & Hfind & Hsplit & Hbefore & Hdelete).
    eexists. split.
    { unfold RemoveObserver. unfold_monad. rewrite Hfind. simpl. reflexivity. }
    simpl. rewrite Hdelete, Hsplit.
    split.
    + rewrite !registrations_app, registrations_cons, decide_True by done. lia.
    + intros o Hne.
      by rewrite !registrations_app, registrations_cons, decide_False by congruence.
Qed.

End ObserverProperties.

(** C6 on a list with two observers and a duplicate: removing an unknown
    observer changes nothing, removing [7] takes its first entry. *)
Lemma RemoveObserver_spec_witness :
  let p : Examples.Port := set_observer_list [5; 7; 9; 7]%nat make in
  RemoveObserver 8%nat p = Done (false, p) []
  /\ exists before after,
       [5; 7; 9; 7]%nat = before ++ 7%nat :: after
       /\ RemoveObserver 7%nat p
          = Done (true, set_observer_list (before ++ after) p) [].
Proof.
  intros p.
  destruct (RemoveObserver_spec 8%nat p) as [Hunknown _].
  destruct (RemoveObserver_spec 7%nat p) as [_ Hknown].
  split.
  - apply Hunknown. subst p. simpl. by not_logged.
  - destruct Hknown as (before & after & Hsplit & _ & Hrun & _).
    + subst p. simpl. rewrite list_elem_of_In. simpl. auto.
    + exists before, after. split; [exact Hsplit | exact Hrun].
Defined.

(** C10 on a port where [7] is registered: it is added a second time, and one
    removal leaves one entry of it. *)
Lemma AddObserver_admits_duplicates_witness :
  AddObserver 7%nat Examples.closed_port
  = Done (true, set_observer_list [7; 7]%nat Examples.closed_port) []
  /\ exists p',
       RemoveObserver 7%nat (set_observer_list [7; 7]%nat Examples.closed_port)
       = Done (true, p') []
       /\ registrations 7%nat (_observer_list p') = 1%nat.
Proof.
  split.
  - apply (AddObserver_admits_duplicates 7%nat Examples.closed_port).
  - destruct (AddObserver_admits_duplicates 7%nat
                (set_observer_list [7; 7]%nat Examples.closed_port))
      as (_ & _ & _ & _ & Hremove).
    destruct Hremove as (p' & Hrun & Hcount & _).
    + simpl. rewrite list_elem_of_In. simpl. auto.
    + exists p'. split; [exact Hrun|].
      apply (inj Datatypes.S). rewrite Hcount. by vm_compute.
Defined.

(** ** The event loop *)

Section LoopProperties.

Context {S D : Type} `{ov.ServerSocket S} `{ov.DatagramSocket D}.

(** C3: for a connection whose descriptor is not negative, the index the data
    callback computes is the descriptor modulo 16, one of 0..15, and depends
    on nothing but the descriptor; with the pool of sixteen workers in place
    the task is appended to the queue of the worker at that index and of no
    other, and the pool keeps its size, so every later event of the
    connection meets the same worker. *)
Theorem data_callback_worker_index
    (client : ov.ClientSocket.t) (data : ov.Data) (p : t S D) :
  let handle := ov.SocketWrapper.GetSocket (ov.ClientSocket.GetSocket client) in
  let index := Z.to_nat (handle `mod` 16) in
  0 <= handle ->
  worker_index client = handle `mod` 16
  /\ 0 <= worker_index client < 16
  /\ (forall client',
        ov.SocketWrapper.GetSocket (ov.ClientSocket.GetSocket client') = handle ->
        worker_index client' = worker_index client)
  /\ (length (_worker_list p) = 16%nat ->
      exists worker,
        _worker_list p !! index = Some worker
        /\ data_callback client data p
           = Done (ov.SocketConnectionState.Connected,
                   set_worker_list
                     (<[index := PhysicalPortWorker.AddTask client data worker]>
                        (_worker_list p)) p)
                  [TaskAdded index (client, data)]
        /\ length (<[index := PhysicalPortWorker.AddTask client data worker]>
                     (_worker_list p)) = 16%nat
        /\ forall other, other <> index ->
             <[index := PhysicalPortWorker.AddTask client data worker]>
               (_worker_list p) !! other = _worker_list p !! other).
Proof.
  intros handle index Hhandle.
  assert (Hindex : worker_index client = handle `mod` 16).
  { unfold worker_index, PHYSICAL_PORT_WORKER_COUNT. fold handle.
    by apply Z.rem_mod_nonneg. }
  assert (Hrange : 0 <= handle `mod` 16 < 16) by (apply Z.mod_pos_bound; lia).
  split_and!.
  - done.
  - rewrite Hindex. lia.
  - rewrite Hindex. lia.
  - intros client' Hsame. unfold worker_index. by rewrite Hsame.
  - intros Hpool.
    assert (Hsize : size_t_of_int (worker_index client) = index).
    { unfold size_t_of_int. rewrite Hindex. rewrite (Z.mod_small _ (2 ^ 64)); [done|].
      lia. }
    destruct (lookup_lt_is_Some_2 (_worker_list p) index) as [worker Hworker].
    { rewrite Hpool. unfold index. lia. }
    exists worker. split_and!.
    + done.
    + unfold data_callback. unfold_monad. rewrite Hsize, Hworker. done.
    + by rewrite length_insert.
    + intros other Hother. by apply list_lookup_insert_ne.
Qed.

Lemma on_datagram_event_run (e : DatagramEvent) (p : t S D) :
  on_datagram_event e p = Done (tt, p) (datagram_fan_out (_observer_list p) e).
Proof.
  unfold on_datagram_event, datagram_data_callback, for_each_observer,
    datagram_fan_out. unfold_monad. simpl. by rewrite !app_nil_r.
Qed.

Lemma dispatch_datagram_run (events : list DatagramEvent) (p : t S D) :
  dispatch on_datagram_event events p
  = Done (tt, p) (flat_map (datagram_fan_out (_observer_list p)) events).
Proof.
  induction events as [|e events IH]; [done|].
  simpl. unfold bind. by rewrite on_datagram_event_run, IH.
Qed.

Lemma loop_exit_datagram_run (p : t S D) :
  exists p' log,
    loop_exit DatagramLoop p = Done (tt, p') log
    /\ _worker_list p' = _worker_list p
    /\ _observer_list p' = _observer_list p
    /\ forall e, e ∈ log -> e = SocketClose ByLoop.
Proof.
  unfold loop_exit. unfold_monad.
  destruct (_datagram_socket p) as [d|]; simpl; eexists _, _.
  - split; [reflexivity|]. split_and!; try done.
    intros e He. apply list_elem_of_singleton in He. done.
  - split; [reflexivity|]. split_and!; try done.
    intros e He. by apply elem_of_nil in He.
Qed.

(** One turn of the loop of [proc]. *)
Lemma proc_unfold {E} (body : EventLoop) (callback : E -> M S D unit)
    (script : list (list E * bool)) (p : t S D) :
  proc body callback script p
  = if _need_to_stop p then loop_exit body p
    else
      match script with
      | [] => Done (tt, p) []
      | (events, continue) :: script =>
          match dispatch callback events p with
          | Done (_, p1) l1 =>
              match
                (if continue then proc body callback script else loop_exit body) p1
              with
              | Done r l2 => Done r (l1 ++ l2)
              | Crash f => Crash f
              end
          | Crash f => Crash f
          end
      end.
Proof.
  destruct script as [|[events continue] script]; simpl; unfold_monad;
    destruct (_need_to_stop p); simpl.
  - by destruct (loop_exit body p) as [[]|].
  - done.
  - by destruct (loop_exit body p) as [[]|].
  - destruct (dispatch callback events p) as [[[] p1] l1|]; [|done].
    by destruct continue;
      [destruct (proc body callback script p1) as [[]|]
      |destruct (loop_exit body p1) as [[]|]].
Qed.

(** The thread body of a datagram port, as one equation. *)
Lemma datagram_proc_run (script : list (list DatagramEvent * bool)) (p : t S D) :
  datagram_proc script p
  = if _need_to_stop p then loop_exit DatagramLoop p
    else
      match
        (if returns_false script then loop_exit DatagramLoop p else Done (tt, p) [])
      with
      | Done r log =>
          Done r (flat_map (datagram_fan_out (_observer_list p)) (delivered script)
                  ++ log)
      | Crash f => Crash f
      end.
Proof.
  unfold datagram_proc.
  destruct (loop_exit_datagram_run p) as (pe & le & Hexit & _).
  induction script as [|[events continue] script IH];
    rewrite proc_unfold; destruct (_need_to_stop p) eqn:Hstop; try done.
  rewrite dispatch_datagram_run. simpl.
  destruct continue.
  - rewrite IH.
    destruct (returns_false script); rewrite ?Hexit;
      by rewrite flat_map_app, <- ?app_assoc.
  - by rewrite Hexit, flat_map_app, !app_nil_r.
Qed.

(** C8: on a datagram endpoint the data callback calls [OnDataReceived] on
    every entry of the observer list, in order, with the remote address and
    the payload of the packet, inside the callback itself and without
    touching the port; the whole thread body of a datagram port logs nothing
    but these notifications, for the packets delivered to it, and the close
    of the socket on its way out: no task is given to a worker, and no
    [OnConnected] or [OnDisconnected] is sent. *)
Theorem datagram_endpoint_notifies_directly
    (script : list (list DatagramEvent * bool))
    (remote_address : ov.SocketAddress) (data : ov.Data) (p : t S D) :
  datagram_data_callback remote_address data p
  = Done (true, p)
         (map (fun o => Notify (OnDataReceived o remote_address data))
              (_observer_list p))
  /\ exists p' log,
       datagram_proc script p = Done (tt, p') log
       /\ _worker_list p' = _worker_list p
       /\ _observer_list p' = _observer_list p
       /\ (_need_to_stop p = false ->
           exists exit_log,
             log = flat_map (datagram_fan_out (_observer_list p)) (delivered script)
                   ++ exit_log
             /\ forall e, e ∈ exit_log -> e = SocketClose ByLoop)
       /\ (forall e, e ∈ log ->
             e = SocketClose ByLoop
             \/ exists o remote data',
                  e = Notify (OnDataReceived o remote data')
                  /\ o ∈ _observer_list p
                  /\ (remote, data') ∈ delivered script)
       /\ (forall o client, Notify (OnConnected o client) ∉ log)
       /\ (forall o client reason error,
             Notify (OnDisconnected o client reason error) ∉ log)
       /\ (forall index task, TaskAdded index task ∉ log).
Proof.
  split.
  { unfold datagram_data_callback, for_each_observer. unfold_monad.
    simpl. by rewrite app_nil_r. }
  destruct (loop_exit_datagram_run p) as (pe & le & Hexit & Hpool & Hobs & Hle).
  assert (Hfan : forall e,
    e ∈ flat_map (datagram_fan_out (_observer_list p)) (delivered script) ->
    exists o remote data',
      e = Notify (OnDataReceived o remote data')
      /\ o ∈ _observer_list p /\ (remote, data') ∈ delivered script).
  { intros e He. apply list_elem_of_In, in_flat_map in He as ([remote data'] & Hpacket & He).
    apply list_elem_of_In, list_elem_of_fmap in He as (o & -> & Ho).
    exists o, remote, data'. split_and!; [done..|]. by apply list_elem_of_In. }
  assert (Hshape : exists p' log,
    datagram_proc script p = Done (tt, p') log
    /\ _worker_list p' = _worker_list p
    /\ _observer_list p' = _observer_list p
    /\ (_need_to_stop p = false ->
        exists exit_log,
          log = flat_map (datagram_fan_out (_observer_list p)) (delivered script)
                ++ exit_log
          /\ forall e, e ∈ exit_log -> e = SocketClose ByLoop)
    /\ (forall e, e ∈ log ->
          e = SocketClose ByLoop
          \/ exists o remote data',
               e = Notify (OnDataReceived o remote data')
               /\ o ∈ _observer_list p
               /\ (remote, data') ∈ delivered script)).
  { rewrite datagram_proc_run.
    destruct (_need_to_stop p) eqn:Hstop.
    - exists pe, le. split_and!; try done. intros e He. left. by apply Hle.
    - destruct (returns_false script); rewrite ?Hexit.
      + exists pe, (flat_map (datagram_fan_out (_observer_list p)) (delivered script) ++ le).
        split_and!; try done.
        * intros _. by exists le.
        * intros e [He|He]%elem_of_app; [right; by apply Hfan | left; by apply Hle].
      + exists p, (flat_map (datagram_fan_out (_observer_list p)) (delivered script) ++ []).
        split_and!; try done.
        * intros _. exists []. split; [done|]. intros e He. by apply elem_of_nil in He.
        * intros e [He|He]%elem_of_app; [right; by apply Hfan | by apply elem_of_nil in He]. }
  destruct Hshape as (p' & log & Hrun & Hworkers & Hobservers & Hexact & Hlog).
  exists p', log. split_and!; try done.
  - intros o client He. by destruct (Hlog _ He) as [?|(?&?&?&?&_)].
  - intros o client reason error He. by destruct (Hlog _ He) as [?|(?&?&?&?&_)].
  - intros index task He. by destruct (Hlog _ He) as [?|(?&?&?&?&_)].
Qed.

End LoopProperties.

(** C3 on a port with its pool in place: the connection with descriptor 37
    is served by worker 5. *)
Lemma data_callback_worker_index_witness :
  let client :=
    {| ov.ClientSocket.GetSocket := {| ov.SocketWrapper.GetSocket := 37 |} |} in
  worker_index client = 5
  /\ exists worker,
       _worker_list (Examples.created ov.SocketType.Tcp) !! 5%nat = Some worker
       /\ data_callback client "PING" (Examples.created ov.SocketType.Tcp)
          = Done (ov.SocketConnectionState.Connected,
                  set_worker_list
                    (<[5%nat := PhysicalPortWorker.AddTask client "PING" worker]>
                       (_worker_list (Examples.created ov.SocketType.Tcp)))
                    (Examples.created ov.SocketType.Tcp))
                 [TaskAdded 5 (client, "PING")].
Proof.
  intros client.
  destruct (data_callback_worker_index client "PING"
              (Examples.created ov.SocketType.Tcp))
    as (Hindex & _ & _ & Hpool); [simpl; lia|].
  split; [exact Hindex|].
  destruct Hpool as (worker & Hworker & Hrun & _); [by vm_compute|].
  exists worker. split; [exact Hworker | exact Hrun].
Defined.

(** C8 on a datagram port with observer [7]: the packet [HELLO] from
    [203.0.113.5:4000] produces one [OnDataReceived] for the observer and
    nothing else. *)
Lemma datagram_endpoint_notifies_directly_witness :
  let remote := {| ov.host := "203.0.113.5"; ov.port := 4000 |} in
  exists p',
    datagram_proc [([(remote, "HELLO")], true)]
      (Examples.created ov.SocketType.Udp)
    = Done (tt, p') [Notify (OnDataReceived 7%nat remote "HELLO")]
    /\ _worker_list p' = [].
Proof.
  intros remote.
  destruct (datagram_endpoint_notifies_directly
              [([(remote, "HELLO")], true)] remote "HELLO"
              (Examples.created ov.SocketType.Udp))
    as (_ & p' & log & Hrun & Hworkers & _ & Hexact & _).
  destruct Hexact as (exit_log & _ & _); [by vm_compute|].
  exists p'. split; [|by rewrite Hworkers].
  rewrite Hrun. f_equal.
  assert (Hvalue : datagram_proc [([(remote, "HELLO")], true)]
                     (Examples.created ov.SocketType.Udp)
                   = Done (tt, Examples.created ov.SocketType.Udp)
                          [Notify (OnDataReceived 7%nat remote "HELLO")])
    by (by vm_compute).
  rewrite Hvalue in Hrun. by injection Hrun as _ <-.
Defined.

(** * Further properties of the port *)

Section CreateMore.

Context {S D : Type} `{ov.ServerSocket S} `{ov.DatagramSocket D}.

(** [Create] is its assertion followed by the case of its switch. *)
Lemma Create_unfold fatal (server : S) (datagram : D) type address sb rb
    (p : t S D) :
  Create fatal server datagram type address sb rb p
  = if (is_null (_server_socket p) && is_null (_datagram_socket p)) || negb fatal
    then
      match type with
      | ov.SocketType.Srt | ov.SocketType.Tcp =>
          CreateServerSocket server type address sb rb p
      | ov.SocketType.Udp => CreateDatagramSocket datagram type address p
      | ov.SocketType.Unknown => Done (false, p) []
      end
    else Crash AssertionFailed.
Proof.
  unfold Create, OV_ASSERT2. unfold_monad.
  destruct (is_null (_server_socket p) && is_null (_datagram_socket p)), fatal;
    simpl; try done.
  all: destruct type; try done.
  all: try by destruct (CreateServerSocket server _ address sb rb p) as [[]|].
  all: by destruct (CreateDatagramSocket datagram _ address p) as [[]|].
Qed.

(** [CreateDatagramSocket], one equation per outcome of [Prepare]. *)
Lemma CreateDatagramSocket_run (socket : D) type address (p : t S D) :
  CreateDatagramSocket socket type address p
  = let '(prepared, socket') := ov.PrepareDatagram socket address in
    if prepared then
      if joinable (_thread p) then Crash Terminate
      else
        Done (true,
              {| _type := type; _address := address;
                 _server_socket := _server_socket p;
                 _datagram_socket := Some socket';
                 _need_to_stop := false; _thread := Looping DatagramLoop;
                 _worker_list := _worker_list p;
                 _observer_list := _observer_list p |})
             [SocketPrepare type address; StopFlag false;
              ThreadStarted DatagramLoop]
    else Done (false, p) [SocketPrepare type address].
Proof.
  unfold CreateDatagramSocket, start_thread. unfold_monad.
  destruct (ov.PrepareDatagram socket address) as [[] socket']; simpl; [|done].
  by destruct (joinable (_thread p)).
Qed.

(** The port a [Create] that returns true leaves behind. *)
Lemma Create_true_inv fatal (server : S) (datagram : D) type address sb rb
    (p p' : t S D) (log : list Event) :
  Create fatal server datagram type address sb rb p = Done (true, p') log ->
  joinable (_thread p) = false
  /\ ((stream_kind type = true
       /\ fst (ov.Prepare server type address sb rb 4096) = true
       /\ p' = {| _type := type; _address := address;
                  _server_socket :=
                    Some (snd (ov.Prepare server type address sb rb 4096));
                  _datagram_socket := _datagram_socket p;
                  _need_to_stop := false; _thread := Looping ServerLoop;
                  _worker_list := started_pool (_worker_list p);
                  _observer_list := _observer_list p |})
      \/ (type = ov.SocketType.Udp
          /\ fst (ov.PrepareDatagram datagram address) = true
          /\ p' = {| _type := type; _address := address;
                     _server_socket := _server_socket p;
                     _datagram_socket :=
                       Some (snd (ov.PrepareDatagram datagram address));
                     _need_to_stop := false; _thread := Looping DatagramLoop;
                     _worker_list := _worker_list p;
                     _observer_list := _observer_list p |})).
Proof.
  rewrite Create_unfold.
  destruct ((is_null (_server_socket p) && is_null (_datagram_socket p))
            || negb fatal); [|discriminate].
  destruct type; try discriminate.
  - rewrite CreateDatagramSocket_run.
    destruct (ov.PrepareDatagram datagram address) as [[] socket'];
      [|discriminate].
    destruct (joinable (_thread p)); [discriminate|].
    intros [= <- <-]. split; [done|]. right. done.
  - rewrite CreateServerSocket_run. cbv zeta.
    destruct (ov.Prepare server ov.SocketType.Tcp address sb rb 4096)
      as [[] socket']; [|discriminate].
    destruct (joinable (_thread p)); [discriminate|].
    intros [= <- <-]. split; [done|]. left. done.
  - rewrite CreateServerSocket_run. cbv zeta.
    destruct (ov.Prepare server ov.SocketType.Srt address sb rb 4096)
      as [[] socket']; [|discriminate].
    destruct (joinable (_thread p)); [discriminate|].
    intros [= <- <-]. split; [done|]. left. done.
Qed.

(** X9: a datagram [Create] on a closed port either fails and leaves the port
    exactly as it was, or succeeds without building a pool: the worker list
    is the one the port had, no worker is created or started, and the thread
    runs the datagram loop on the prepared socket. *)
Theorem Create_datagram fatal (server : S) (datagram : D) address sb rb
    (p : t S D) :
  _server_socket p = None -> _datagram_socket p = None ->
  (fst (ov.PrepareDatagram datagram address) = false ->
   Create fatal server datagram ov.SocketType.Udp address sb rb p
   = Done (false, p) [SocketPrepare ov.SocketType.Udp address])
  /\ (fst (ov.PrepareDatagram datagram address) = true ->
      _thread p = NoThread ->
      exists p',
        Create fatal server datagram ov.SocketType.Udp address sb rb p
        = Done (true, p')
               [SocketPrepare ov.SocketType.Udp address; StopFlag false;
                ThreadStarted DatagramLoop]
        /\ _worker_list p' = _worker_list p
        /\ _observer_list p' = _observer_list p
        /\ _server_socket p' = None
        /\ _datagram_socket p'
           = Some (snd (ov.PrepareDatagram datagram address))
        /\ _thread p' = Looping DatagramLoop
        /\ _need_to_stop p' = false
        /\ _type p' = ov.SocketType.Udp
        /\ _address p' = address).
Proof.
  intros Hsrv Hdgr.
  rewrite Create_unfold, CreateDatagramSocket_run, Hsrv, Hdgr. simpl.
  destruct (ov.PrepareDatagram datagram address) as [prepared socket']. simpl.
  split; intros ->; [done|]. intros ->. simpl.
  eexists. split; [reflexivity|]. by simpl.
Qed.

(** X10: what [GetState] answers right after a [Create] that returned true:
    the state of the prepared primitive for Tcp and Udp, but [Closed] for
    Srt, whose port is open and listening, because the switch of [GetState]
    has no case for it. *)
Theorem GetState_after_Create fatal fatal' (server : S) (datagram : D)
    type address sb rb (p p' : t S D) (log : list Event) :
  Create fatal server datagram type address sb rb p = Done (true, p') log ->
  GetState fatal' p'
  = Done (match type with
          | ov.SocketType.Tcp =>
              ov.GetState (snd (ov.Prepare server type address sb rb 4096))
          | ov.SocketType.Udp =>
              ov.GetState (snd (ov.PrepareDatagram datagram address))
          | ov.SocketType.Srt | ov.SocketType.Unknown => ov.SocketState.Closed
          end, p') [].
Proof.
  intros Hrun.
  apply Create_true_inv in Hrun as (_ & [(Hkind & _ & ->) | (-> & _ & ->)]).
  - destruct type; try discriminate; done.
  - done.
Qed.

(** X11: where the assertion of [Create] has no effect, a [Create] on a port
    whose thread is still joinable ends in [std::terminate] as soon as
    [Prepare] succeeds: the new thread is assigned over the old one. *)
Theorem Create_over_joinable_thread (server : S) (datagram : D)
    type address sb rb (p : t S D) :
  joinable (_thread p) = true ->
  (stream_kind type = true ->
   fst (ov.Prepare server type address sb rb 4096) = true ->
   Create false server datagram type address sb rb p = Crash Terminate)
  /\ (fst (ov.PrepareDatagram datagram address) = true ->
      Create false server datagram ov.SocketType.Udp address sb rb p
      = Crash Terminate).
Proof.
  intros Hthread. split.
  - intros Hkind Hprepare. rewrite Create_unfold, orb_true_r.
    assert (Hrun : CreateServerSocket server type address sb rb p = Crash Terminate).
    { rewrite CreateServerSocket_run. cbv zeta.
      destruct (ov.Prepare server type address sb rb 4096) as [prepared socket'].
      simpl in Hprepare. subst prepared. by rewrite Hthread. }
    by destruct type.
  - intros Hprepare. rewrite Create_unfold, orb_true_r, CreateDatagramSocket_run.
    destruct (ov.PrepareDatagram datagram address) as [prepared socket'].
    simpl in Hprepare. subst prepared. by rewrite Hthread.
Qed.

End CreateMore.

Section CloseMore.

Context {S D : Type} `{ov.ServerSocket S} `{ov.DatagramSocket D}.

(** X3: on the Udp path with a socket, the result of [Close] is what the
    primitive reports after the join (closed already, or its [Close] returns
    true), as on the Tcp path; the socket pointer is reset exactly when the
    result is true. *)
Theorem Close_Udp_result (p p' : t S D) (d : D) (r : bool) (log : list Event) :
  _type p = ov.SocketType.Udp -> _datagram_socket p = Some d ->
  Close p = Done (r, p') log ->
  let d1 := match _thread p with
            | Looping DatagramLoop => snd (ov.Close d)
            | _ => d
            end in
  r = ov.SocketState.is_closed (ov.GetState d1) || fst (ov.Close d1)
  /\ _datagram_socket p' = (if r then None else Some (snd (ov.Close d1))).
Proof.
  destruct p as [ty addr srv dgr stop th ws os]. simpl. intros -> ->.
  unfold_members; unfold_monad.
  destruct th as [|[]|], srv as [s|]; simpl.
  all: case_socket.
  all: by intros [= <- <- <-].
Qed.

(** X4: [Close] called again after a [Close] that returned true.  On a Tcp
    port the second call finds the pointer null, returns false and leaves the
    port as it is; on a Udp port, whose case has no test of the pointer, it
    dereferences null. *)
Theorem Close_again (p p' : t S D) (log : list Event) :
  Close p = Done (true, p') log ->
  Close p'
  = match _type p with
    | ov.SocketType.Udp => Crash NullPointer
    | _ => Done (false, p') [StopFlag true; WorkerListCleared]
    end.
Proof.
  destruct p as [ty addr srv dgr stop th ws os].
  unfold_members; unfold_monad.
  destruct th as [|[]|], ty, srv as [s|], dgr as [d|]; simpl; try discriminate.
  all: case_socket; try discriminate.
  all: by intros [= <- <-].
Qed.

(** X5: after a [Close] that returned true the port is silent: the observer
    list is empty and no thread is left, so a fan-out of either kind notifies
    nobody and a loop has nothing to run. *)
Theorem Close_true_silences (fatal : bool) (p p' : t S D) (log : list Event) :
  Close p = Done (true, p') log ->
  (forall client state error,
     client_callback client state error p' = Done (state, p') [])
  /\ (forall remote_address data,
        datagram_data_callback remote_address data p' = Done (true, p') [])
  /\ (forall script, call fatal (ServerLoopRuns script) p' = Done p' [])
  /\ (forall script, call fatal (DatagramLoopRuns script) p' = Done p' []).
Proof.
  intros Hrun.
  assert (Hstate : _observer_list p' = [] /\ _thread p' = NoThread).
  { revert Hrun. destruct p as [ty addr srv dgr stop th ws os].
    unfold_members; unfold_monad.
    destruct th as [|[]|], ty, srv as [s|], dgr as [d|]; simpl; try discriminate.
    all: case_socket; try discriminate.
    all: by intros [= <- <-]. }
  destruct Hstate as [Hobs Hthread].
  split_and!.
  - intros client state error.
    unfold client_callback, for_each_observer. unfold_monad.
    by destruct state; rewrite Hobs.
  - intros remote_address data.
    unfold datagram_data_callback, for_each_observer. unfold_monad.
    by rewrite Hobs.
  - intros script. simpl. by rewrite Hthread.
  - intros script. simpl. by rewrite Hthread.
Qed.

(** X6: destroying the port.  After a [Close] that returned true the
    destructor passes its assertion and finds no thread to destroy.  After a
    [Close] that returned false no thread is left either, but the observers
    are still registered, so the assertion fails unless the list was empty.
    A port whose thread is joinable, that is one created and not closed,
    ends in [std::terminate] when the assertion lets it through. *)
Theorem Destroy_after_Close (fatal : bool) (p p' : t S D) (r : bool)
    (log : list Event) :
  (Close p = Done (r, p') log ->
   Destroy fatal p'
   = if r || bool_decide (_observer_list p = []) || negb fatal
     then Done (tt, p') []
     else Crash AssertionFailed)
  /\ (joinable (_thread p) = true ->
      Destroy fatal p
      = if bool_decide (_observer_list p = []) || negb fatal
        then Crash Terminate
        else Crash AssertionFailed).
Proof.
  split.
  - destruct p as [ty addr srv dgr stop th ws os].
    unfold Destroy. unfold_members; unfold_monad.
    destruct th as [|[]|], ty, srv as [s|], dgr as [d|]; simpl; try discriminate.
    all: case_socket; try discriminate.
    all: intros [= <- <-]; simpl; try done.
    all: by destruct (bool_decide (os = [])), fatal.
  - intros Hthread. unfold Destroy, OV_ASSERT2. unfold_monad.
    by destruct (bool_decide (_observer_list p = [])), fatal; simpl;
      rewrite ?Hthread.
Qed.

(** X8: [DisconnectClient] faults with a null dereference exactly on a port
    without server socket, which is every port that was not created with a
    stream kind or that [Close] has closed; with a server socket it returns
    what the primitive returns and changes nothing of the port but the
    primitive. *)
Theorem DisconnectClient_needs_server_socket `{ov.ClientDisconnect S}
    (client : ov.ClientSocket.t) (p : t S D) :
  (_server_socket p = None <-> DisconnectClient client p = Crash NullPointer)
  /\ (forall s,
        _server_socket p = Some s ->
        DisconnectClient client p
        = Done (fst (ov.DisconnectClient s client
                       ov.SocketConnectionState.Disconnected),
                set_server_socket
                  (Some (snd (ov.DisconnectClient s client
                                ov.SocketConnectionState.Disconnected))) p) [])
  /\ (forall p' log,
        Close p = Done (true, p') log -> _type p = ov.SocketType.Tcp ->
        DisconnectClient client p' = Crash NullPointer).
Proof.
  unfold DisconnectClient. unfold_monad.
  split_and!.
  - destruct (_server_socket p) as [s|]; [|done].
    split; [done|].
    by destruct (ov.DisconnectClient s client _).
  - intros s ->. by destruct (ov.DisconnectClient s client _).
  - intros p' log Hrun Htype.
    assert (Hnull : _server_socket p' = None).
    { revert Hrun. destruct p as [ty addr srv dgr stop th ws os].
      simpl in Htype. subst ty. unfold_members; unfold_monad.
      destruct th as [|[]|], srv as [s|], dgr as [d|]; simpl; try discriminate.
      all: case_socket; try discriminate.
      all: by intros [= <- <-]. }
    by rewrite Hnull.
Qed.

End CloseMore.

(** Moving an observer from the front of a list to its back gives the list
    again exactly when the list holds nothing but the observer. *)
Lemma moved_to_back (observer : PhysicalPortObserver)
    (after : list PhysicalPortObserver) :
  after ++ [observer] = observer :: after
  <-> Forall (fun o => o = observer) after.
Proof.
  induction after as [|o after IH]; simpl.
  - split; [by constructor | done].
  - split.
    + intros [= -> Hrest]. constructor; [done|]. by apply IH.
    + intros Hall. apply Forall_cons in Hall as [-> Hall].
      f_equal. by apply IH.
Qed.

Section ObserverMore.

Context {S D : Type} `{ov.ServerSocket S} `{ov.DatagramSocket D}.

(** X12: [AddObserver] followed by [RemoveObserver] of the same observer.
    When the observer was not registered before, the port is what it was.
    When it was, the removal takes its first, older entry and the new entry
    stays at the back: the observer moves to the end of the list, and the
    port is what it was only if every entry behind the first one of the
    observer holds the observer as well. *)
Theorem AddObserver_then_RemoveObserver
    (observer : PhysicalPortObserver) (p : t S D) :
  exists p1,
    AddObserver observer p = Done (true, p1) []
    /\ (observer ∉ _observer_list p ->
        RemoveObserver observer p1 = Done (true, p) [])
    /\ (forall before after,
          _observer_list p = before ++ observer :: after ->
          observer ∉ before ->
          RemoveObserver observer p1
          = Done (true, set_observer_list (before ++ after ++ [observer]) p) []
          /\ (set_observer_list (before ++ after ++ [observer]) p = p
              <-> Forall (fun o => o = observer) after)).
Proof.
  eexists. split; [reflexivity|].
  assert (Hrun : forall before after,
    _observer_list p ++ [observer] = before ++ observer :: after ->
    observer ∉ before ->
    RemoveObserver observer
      (set_observer_list (_observer_list p ++ [observer]) p)
    = Done (true, set_observer_list (before ++ after) p) []).
  { intros before after Hsplit Hbefore.
    destruct (find_erase observer (_observer_list p ++ [observer]))
      as (item & before' & after' & Hfind & Hsplit' & Hbefore' & Hdelete).
    { apply elem_of_app. right. by apply list_elem_of_singleton. }
    rewrite Hsplit in Hsplit'.
    apply not_elem_of_app_cons_inv_l in Hsplit' as (<- & _ & <-); [|done..].
    unfold RemoveObserver. unfold_monad. simpl. rewrite Hfind. simpl.
    rewrite Hdelete. by destruct p. }
  split.
  - intros Hnotin. rewrite (Hrun (_observer_list p) []).
    + rewrite app_nil_r. by destruct p.
    + done.
    + done.
  - intros before after Hsplit Hbefore. split.
    + apply Hrun; [|done]. by rewrite Hsplit, <- app_assoc.
    + rewrite <- (moved_to_back observer after).
      split.
      * intros Hsame. apply (f_equal _observer_list) in Hsame.
        simpl in Hsame. rewrite Hsplit in Hsame.
        by apply app_inv_head in Hsame.
      * intros Hsame. destruct p. simpl in *. by rewrite Hsplit, Hsame.
Qed.

End ObserverMore.

(** The index of a connection whose descriptor is not negative. *)
Lemma task_index_nonneg (client : ov.ClientSocket.t) :
  0 <= ov.SocketWrapper.GetSocket (ov.ClientSocket.GetSocket client) ->
  task_index client
  = Z.to_nat (ov.SocketWrapper.GetSocket (ov.ClientSocket.GetSocket client) `mod` 16).
Proof.
  intros Hhandle. unfold task_index, size_t_of_int, worker_index,
    PHYSICAL_PORT_WORKER_COUNT.
  rewrite Z.rem_mod_nonneg by lia.
  rewrite (Z.mod_small _ (2 ^ 64)); [done|].
  pose proof (Z.mod_pos_bound
    (ov.SocketWrapper.GetSocket (ov.ClientSocket.GetSocket client)) 16).
  lia.
Qed.

Section DataCallbackMore.

Context {S D : Type} `{ov.ServerSocket S} `{ov.DatagramSocket D}.

(** X13: the bounds of the data callback.  It throws [std::out_of_range]
    exactly when the pool is not longer than the index it computes, so it
    always does on an empty pool.  The index is below 16 for a descriptor
    that is not negative or is a multiple of 16; for any other negative
    descriptor the remainder is negative and converts to a [size_t] of at
    least 2^64 - 15, past the end of any pool.  When the callback returns it
    has touched no worker at a position from 16 on. *)
Theorem data_callback_bounds
    (client : ov.ClientSocket.t) (data : ov.Data) (p : t S D) :
  let handle := ov.SocketWrapper.GetSocket (ov.ClientSocket.GetSocket client) in
  (data_callback client data p = Crash OutOfRange
   <-> (length (_worker_list p) <= task_index client)%nat)
  /\ (_worker_list p = [] -> data_callback client data p = Crash OutOfRange)
  /\ (0 <= handle \/ handle `mod` 16 = 0 -> (task_index client < 16)%nat)
  /\ (handle < 0 -> handle `mod` 16 <> 0 ->
      2 ^ 64 - 15 <= Z.of_nat (task_index client))
  /\ (forall r p' log,
        data_callback client data p = Done (r, p') log ->
        Z.of_nat (length (_worker_list p)) < 2 ^ 64 - 15 ->
        forall index, (16 <= index)%nat ->
          _worker_list p' !! index = _worker_list p !! index).
Proof.
  intros handle.
  assert (Hcrash : data_callback client data p = Crash OutOfRange
                   <-> (length (_worker_list p) <= task_index client)%nat).
  { unfold data_callback. unfold_monad. fold (task_index client).
    destruct (_worker_list p !! task_index client) as [w|] eqn:Hw.
    - apply lookup_lt_Some in Hw. split; [done|lia].
    - apply lookup_ge_None in Hw. done. }
  assert (Hsmall : 0 <= handle \/ handle `mod` 16 = 0 ->
                   (task_index client < 16)%nat).
  { intros [Hnonneg | Hmultiple].
    - rewrite task_index_nonneg by done. fold handle.
      pose proof (Z.mod_pos_bound handle 16). lia.
    - unfold task_index, size_t_of_int, worker_index,
        PHYSICAL_PORT_WORKER_COUNT. fold handle.
      assert (Z.rem handle 16 = 0) as ->.
      { apply Z.rem_divide; [lia|]. apply Z.mod_divide; [lia|done]. }
      rewrite Zmod_0_l. simpl. lia. }
  assert (Hlarge : handle < 0 -> handle `mod` 16 <> 0 ->
                   2 ^ 64 - 15 <= Z.of_nat (task_index client)).
  { intros Hneg Hrest.
    unfold task_index, size_t_of_int, worker_index,
      PHYSICAL_PORT_WORKER_COUNT. fold handle.
    assert (Hbound : -16 < Z.rem handle 16 <= 0).
    { pose proof (Z.rem_nonpos handle 16).
      pose proof (Z.rem_bound_abs handle 16). lia. }
    assert (Hrem : Z.rem handle 16 <> 0).
    { intros Hrem. apply Hrest. apply Z.mod_divide; [lia|].
      apply Z.rem_divide; [lia|done]. }
    rewrite Z2Nat.id by (apply Z.mod_pos_bound; lia).
    assert (Hshift : Z.rem handle 16 `mod` 2 ^ 64 = Z.rem handle 16 + 2 ^ 64).
    { symmetry. apply Z.mod_unique with (q := -1); [left|]; lia. }
    lia. }
  split_and!; try done.
  - intros Hempty. apply Hcrash. rewrite Hempty. simpl. lia.
  - intros r p' log Hrun Hlength index Hindex.
    revert Hrun. unfold data_callback. unfold_monad. fold (task_index client).
    destruct (_worker_list p !! task_index client) as [w|] eqn:Hw; [|done].
    intros [= _ <- _]. simpl.
    apply list_lookup_insert_ne.
    destruct (decide (0 <= handle \/ handle `mod` 16 = 0)) as [Hcase|Hcase].
    + specialize (Hsmall Hcase). lia.
    + apply lookup_lt_Some in Hw.
      assert (2 ^ 64 - 15 <= Z.of_nat (task_index client)) by (apply Hlarge; lia).
      lia.
Qed.

End DataCallbackMore.

(** The tasks of one connection all carry the index of the connection. *)
Lemma tasks_for_connection (client : ov.ClientSocket.t)
    (events : list ServerEvent) :
  filter (fun task => ov.ClientSocket.GetSocket (fst task)
                      = ov.ClientSocket.GetSocket client)
         (tasks_for (task_index client) events)
  = filter (fun task => ov.ClientSocket.GetSocket (fst task)
                        = ov.ClientSocket.GetSocket client)
           (data_tasks events).
Proof.
  unfold tasks_for.
  induction (data_tasks events) as [|task tasks IH]; [done|].
  rewrite !filter_cons.
  destruct (decide (task_index task.1 = task_index client)) as [Hindex|Hindex];
    [rewrite filter_cons|];
    destruct (decide (ov.ClientSocket.GetSocket task.1
                      = ov.ClientSocket.GetSocket client)) as [Hsame|Hother];
    try exact IH; try (f_equal; exact IH).
  exfalso. apply Hindex. unfold task_index, worker_index. by rewrite Hsame.
Qed.

Section ServerLoopMore.

Context {S D : Type} `{ov.ServerSocket S} `{ov.DatagramSocket D}.

(** What the server loop does with one event. *)
Lemma on_server_event_run (e : ServerEvent) (p : t S D) :
  on_server_event e p
  = match e with
    | ConnectionEvent _ _ _ =>
        Done (tt, p) (server_event_log (_observer_list p) e)
    | DataEvent client data =>
        match _worker_list p !! task_index client with
        | Some worker =>
            Done (tt,
                  set_worker_list
                    (<[task_index client :=
                         PhysicalPortWorker.AddTask client data worker]>
                       (_worker_list p)) p)
                 (server_event_log (_observer_list p) e)
        | None => Crash OutOfRange
        end
    end.
Proof.
  destruct e as [client state error | client data]; simpl.
  - unfold client_callback, for_each_observer. unfold_monad.
    destruct state; simpl; by rewrite !app_nil_r.
  - unfold data_callback. unfold_monad. fold (task_index client).
    by destruct (_worker_list p !! task_index client).
Qed.

(** Handing over a list of events is handing over its parts in turn. *)
Lemma dispatch_app {E} (callback : E -> M S D unit) (events1 events2 : list E)
    (p : t S D) :
  dispatch callback (events1 ++ events2) p
  = match dispatch callback events1 p with
    | Done (_, p1) l1 =>
        match dispatch callback events2 p1 with
        | Done r l2 => Done r (l1 ++ l2)
        | Crash f => Crash f
        end
    | Crash f => Crash f
    end.
Proof.
  revert p. induction events1 as [|e events1 IH]; intros p; simpl.
  - unfold ret. by destruct (dispatch callback events2 p) as [[]|].
  - unfold bind. destruct (callback e p) as [[[] p0] l0|]; [|done].
    rewrite IH. destruct (dispatch callback events1 p0) as [[[] p1] l1|]; [|done].
    destruct (dispatch callback events2 p1) as [[[] p2] l2|]; [|done].
    by rewrite app_assoc.
Qed.

(** The server callbacks change nothing of the port but the queues of the
    workers. *)
Lemma dispatch_server_frame (events : list ServerEvent) (p p' : t S D)
    (log : list Event) :
  dispatch on_server_event events p = Done (tt, p') log ->
  exists workers,
    p' = set_worker_list workers p
    /\ length workers = length (_worker_list p)
    /\ (Forall (fun w => PhysicalPortWorker.running w = true) (_worker_list p) ->
        Forall (fun w => PhysicalPortWorker.running w = true) workers).
Proof.
  revert p log. induction events as [|e events IH]; intros p log; simpl.
  - intros [= <- <-]. exists (_worker_list p). by destruct p.
  - unfold bind. rewrite on_server_event_run.
    destruct e as [client state error | client data].
    + destruct (dispatch on_server_event events p) as [[[] p1] l1|] eqn:Hrest;
        [|done].
      intros [= <- <-]. by apply IH in Hrest.
    + destruct (_worker_list p !! task_index client) as [worker|] eqn:Hworker;
        [|done].
      destruct (dispatch on_server_event events _) as [[[] p1] l1|] eqn:Hrest;
        [|done].
      intros [= <- <-].
      apply IH in Hrest as (workers & -> & Hlength & Hrunning).
      exists workers. split_and!.
      * by destruct p.
      * simpl in Hlength. by rewrite length_insert in Hlength.
      * intros Hall. apply Hrunning. simpl.
        apply Forall_insert; [done|].
        by apply (Forall_lookup_1 _ _ _ _ Hall Hworker).
Qed.

Lemma dispatch_server_keeps_flag (events : list ServerEvent) (q q' : t S D)
    (log : list Event) :
  dispatch on_server_event events q = Done (tt, q') log ->
  _need_to_stop q' = _need_to_stop q.
Proof.
  intros Hrun. by apply dispatch_server_frame in Hrun as (workers & -> & _).
Qed.

(** X14: the server loop keeps the order of arrival.  When the pool covers the
    index of every data event of a list, handing the list to the callbacks
    never faults; it logs the fan-out of each connection event and the
    hand-over of each task in the order of the events, changes nothing of the
    port but the queues, and appends to the queue of the worker at each
    position the tasks of that position in the order they arrived.  All tasks
    of one connection are among those of its worker, so they are queued in
    their order of arrival. *)
Theorem dispatch_keeps_arrival_order (events : list ServerEvent) (p : t S D) :
  (forall client data,
     DataEvent client data ∈ events ->
     (task_index client < length (_worker_list p))%nat) ->
  exists workers,
    dispatch on_server_event events p
    = Done (tt, set_worker_list workers p)
           (flat_map (server_event_log (_observer_list p)) events)
    /\ length workers = length (_worker_list p)
    /\ (forall index worker,
          _worker_list p !! index = Some worker ->
          workers !! index
          = Some {| PhysicalPortWorker.running := PhysicalPortWorker.running worker;
                    PhysicalPortWorker.queue :=
                      PhysicalPortWorker.queue worker ++ tasks_for index events |})
    /\ (forall client,
          filter (fun task => ov.ClientSocket.GetSocket (fst task)
                              = ov.ClientSocket.GetSocket client)
                 (tasks_for (task_index client) events)
          = filter (fun task => ov.ClientSocket.GetSocket (fst task)
                                = ov.ClientSocket.GetSocket client)
                   (data_tasks events)).
Proof.
  intros Hcovered.
  cut (exists workers,
    dispatch on_server_event events p
    = Done (tt, set_worker_list workers p)
           (flat_map (server_event_log (_observer_list p)) events)
    /\ length workers = length (_worker_list p)
    /\ (forall index worker,
          _worker_list p !! index = Some worker ->
          workers !! index
          = Some {| PhysicalPortWorker.running := PhysicalPortWorker.running worker;
                    PhysicalPortWorker.queue :=
                      PhysicalPortWorker.queue worker ++ tasks_for index events |})).
  { intros (workers & Hrun & Hlength & Hqueues). exists workers.
    split_and!; try done. intros client. apply tasks_for_connection. }
  revert p Hcovered. induction events as [|e events IH]; intros p Hcovered.
  - exists (_worker_list p). split_and!.
    + simpl. unfold ret. by destruct p.
    + done.
    + intros index [running queue] ->. simpl. by rewrite app_nil_r.
  - simpl. unfold bind. rewrite on_server_event_run.
    destruct e as [client state error | client data].
    + destruct (IH p) as (workers & Hrun & Hlength & Hqueues).
      { intros c d Hin. apply (Hcovered c d). by right. }
      exists workers. rewrite Hrun. done.
    + destruct (lookup_lt_is_Some_2 (_worker_list p) (task_index client))
        as [worker0 Hworker0].
      { apply (Hcovered client data). by left. }
      rewrite Hworker0.
      destruct (IH (set_worker_list
                      (<[task_index client :=
                           PhysicalPortWorker.AddTask client data worker0]>
                         (_worker_list p)) p))
        as (workers & Hrun & Hlength & Hqueues).
      { intros c d Hin. simpl. rewrite length_insert.
        apply (Hcovered c d). by right. }
      exists workers. rewrite Hrun. simpl in *.
      rewrite length_insert in Hlength.
      split_and!.
      * by destruct p.
      * done.
      * intros index worker Hworker. unfold tasks_for. simpl.
        rewrite filter_cons. simpl.
        destruct (decide (task_index client = index)) as [<-|Hother].
        -- rewrite Hworker0 in Hworker. injection Hworker as <-.
           rewrite (Hqueues (task_index client)
                      (PhysicalPortWorker.AddTask client data worker0)).
           ++ simpl. by rewrite <- app_assoc.
           ++ apply list_lookup_insert_eq. by apply lookup_lt_Some in Hworker0.
        -- apply Hqueues. by rewrite list_lookup_insert_ne.
Qed.

(** The loop of [proc] with a callback that leaves the stop flag alone. *)
Lemma proc_run {E} (body : EventLoop) (callback : E -> M S D unit)
    (script : list (list E * bool)) (p : t S D) :
  (forall events q q' log,
     dispatch callback events q = Done (tt, q') log ->
     _need_to_stop q' = _need_to_stop q) ->
  proc body callback script p
  = if _need_to_stop p then loop_exit body p
    else
      match dispatch callback (delivered script) p with
      | Done (_, p1) l1 =>
          match
            (if returns_false script then loop_exit body p1 else Done (tt, p1) [])
          with
          | Done r l2 => Done r (l1 ++ l2)
          | Crash f => Crash f
          end
      | Crash f => Crash f
      end.
Proof.
  intros Hflag. revert p.
  induction script as [|[events continue] script IH]; intros p;
    rewrite proc_unfold; destruct (_need_to_stop p) eqn:Hstop; try done.
  simpl. rewrite dispatch_app.
  destruct (dispatch callback events p) as [[[] p1] l1|] eqn:Hevents; [|done].
  destruct continue.
  - rewrite IH, (Hflag _ _ _ _ Hevents), Hstop.
    destruct (dispatch callback (delivered script) p1) as [[[] p2] l2|]; [|done].
    destruct (if returns_false script then loop_exit body p2 else Done (tt, p2) [])
      as [r l3|]; [|done].
    by rewrite app_assoc.
  - simpl. destruct (loop_exit body p1) as [r l3|]; [|done].
    by rewrite app_nil_r.
Qed.


End ServerLoopMore.

Section Invariant.

Context {S D : Type} `{ov.ServerSocket S} `{ov.DatagramSocket D}.

Lemma consistent_make : consistent (make : t S D).
Proof.
  split; simpl; try done; try (by exists 0%nat); by apply Forall_nil.
Qed.

(** Consistency looks at nothing of the observers. *)
Lemma consistent_set_observer_list observers (p : t S D) :
  consistent p -> consistent (set_observer_list observers p).
Proof. by intros [Hthread Hpool Hrunning Hflag Hunknown]. Qed.

(** Nor at the queues, as long as the workers stay as many and running. *)
Lemma consistent_set_worker_list workers (p : t S D) :
  length workers = length (_worker_list p) ->
  (Forall (fun w => PhysicalPortWorker.running w = true) (_worker_list p) ->
   Forall (fun w => PhysicalPortWorker.running w = true) workers) ->
  consistent p -> consistent (set_worker_list workers p).
Proof.
  intros Hlength Hstill [Hthread Hpool Hrunning Hflag Hunknown].
  split; simpl; try done.
  - by rewrite Hlength.
  - by apply Hstill.
Qed.

Lemma Create_consistent fatal (server : S) (datagram : D) type address sb rb
    (p p' : t S D) (r : bool) (log : list Event) :
  consistent p ->
  Create fatal server datagram type address sb rb p = Done (r, p') log ->
  consistent p'.
Proof.
  intros Hp. pose proof Hp as [Hthread [k Hpool] Hrunning Hflag Hunknown].
  assert (Hgrown : consistent (set_worker_list (started_pool (_worker_list p)) p)).
  { split; simpl; try done.
    - exists (Datatypes.S k). rewrite started_pool_length. lia.
    - apply started_pool_running. }
  rewrite Create_unfold.
  destruct ((is_null (_server_socket p) && is_null (_datagram_socket p))
            || negb fatal); [|discriminate].
  assert (Hserver : stream_kind type = true ->
    CreateServerSocket server type address sb rb p = Done (r, p') log ->
    consistent p').
  { intros Hkind. rewrite CreateServerSocket_run. cbv zeta.
    destruct (ov.Prepare server type address sb rb 4096) as [[] socket'].
    - destruct (joinable (_thread p)); [discriminate|].
      intros [= <- <- <-]. split; simpl; try done.
      + exists (Datatypes.S k). rewrite started_pool_length. lia.
      + apply started_pool_running.
      + intros ->. discriminate.
    - by intros [= <- <- <-]. }
  destruct type.
  - by intros [= <- <- <-].
  - rewrite CreateDatagramSocket_run.
    destruct (ov.PrepareDatagram datagram address) as [[] socket'].
    + destruct (joinable (_thread p)); [discriminate|].
      intros [= <- <- <-]. split; simpl; try done. by exists k.
    + by intros [= <- <- <-].
  - by apply Hserver.
  - by apply Hserver.
Qed.

(** What every [Close] that returns leaves behind. *)
Lemma Close_frame (p p' : t S D) (r : bool) (log : list Event) :
  Close p = Done (r, p') log ->
  _thread p' = NoThread /\ _worker_list p' = [] /\ _need_to_stop p' = true
  /\ _type p' = _type p
  /\ (_type p = ov.SocketType.Unknown -> _thread p = NoThread ->
      _server_socket p' = _server_socket p
      /\ _datagram_socket p' = _datagram_socket p).
Proof.
  destruct p as [ty addr srv dgr stop th ws os].
  unfold_members; unfold_monad.
  destruct th as [|[]|], ty, srv as [s|], dgr as [d|]; simpl; try discriminate.
  all: case_socket.
  all: by intros [= <- <- <-].
Qed.

Lemma Close_consistent (p p' : t S D) (r : bool) (log : list Event) :
  consistent p -> Close p = Done (r, p') log -> consistent p'.
Proof.
  intros [Hthread Hpool Hrunning Hflag Hunknown] Hrun.
  apply Close_frame in Hrun as (Hth & Hws & Hstop & Hty & Hsockets).
  split.
  - unfold thread_has_socket. by rewrite Hth.
  - exists 0%nat. by rewrite Hws.
  - rewrite Hws. by apply Forall_nil.
  - by rewrite Hstop.
  - rewrite Hty. intros Hunk.
    destruct (Hunknown Hunk) as (Hsrv & Hdgr & Hnone).
    destruct (Hsockets Hunk Hnone) as [-> ->]. done.
Qed.

Lemma GetState_frame fatal (p p' : t S D) (state : ov.SocketState.t)
    (log : list Event) :
  GetState fatal p = Done (state, p') log -> p' = p.
Proof.
  unfold GetState, OV_ASSERT2. unfold_monad.
  destruct (_type p), (_server_socket p), (_datagram_socket p), fatal; simpl;
    try discriminate.
  all: by intros [= _ <- _].
Qed.

Lemma loop_exit_consistent (body : EventLoop) (p p' : t S D)
    (log : list Event) :
  consistent p -> _thread p = Looping body ->
  loop_exit body p = Done (tt, p') log -> consistent p'.
Proof.
  intros [Hthread Hpool Hrunning Hflag Hunknown] Hbody.
  unfold thread_has_socket in Hthread. rewrite Hbody in Hthread.
  unfold loop_exit. unfold_monad.
  destruct body; destruct Hthread as [Hkind Hsocket].
  - destruct (_server_socket p) as [s|] eqn:Hs; [|done]. simpl.
    intros [= <- <-]. split; simpl; try done.
    + unfold thread_has_socket. simpl. left. done.
    + intros Hunk. by rewrite Hunk in Hkind.
  - destruct (_datagram_socket p) as [d|] eqn:Hd; [|done]. simpl.
    intros [= <- <-]. split; simpl; try done.
    + unfold thread_has_socket. simpl. right. done.
    + intros Hunk. by rewrite Hunk in Hkind.
Qed.

Lemma server_proc_consistent (script : list (list ServerEvent * bool))
    (p p' : t S D) (log : list Event) :
  consistent p -> _thread p = Looping ServerLoop ->
  server_proc script p = Done (tt, p') log -> consistent p'.
Proof.
  intros Hp Hbody. unfold server_proc.
  rewrite proc_run by apply dispatch_server_keeps_flag.
  destruct (_need_to_stop p); [by apply loop_exit_consistent|].
  destruct (dispatch on_server_event (delivered script) p)
    as [[[] p1] l1|] eqn:Hdispatch; [|done].
  apply dispatch_server_frame in Hdispatch as (workers & -> & Hlength & Hstill).
  assert (Hp1 : consistent (set_worker_list workers p))
    by by apply consistent_set_worker_list.
  destruct (returns_false script).
  - destruct (loop_exit ServerLoop (set_worker_list workers p))
      as [[[] p2] l2|] eqn:Hexit; [|done].
    intros [= <- <-]. by apply loop_exit_consistent in Hexit.
  - by intros [= <- <-].
Qed.

Lemma datagram_proc_consistent (script : list (list DatagramEvent * bool))
    (p p' : t S D) (log : list Event) :
  consistent p -> _thread p = Looping DatagramLoop ->
  datagram_proc script p = Done (tt, p') log -> consistent p'.
Proof.
  intros Hp Hbody. rewrite datagram_proc_run.
  destruct (_need_to_stop p); [by apply loop_exit_consistent|].
  destruct (returns_false script).
  - destruct (loop_exit DatagramLoop p) as [[[] p2] l2|] eqn:Hexit; [|done].
    intros [= <- <-]. by apply loop_exit_consistent in Hexit.
  - by intros [= <- <-].
Qed.

(** X16: what holds of every port a program can get to from the constructor
    by calls of [Create], [Close], [GetState], [AddObserver] and
    [RemoveObserver] and by runs of the thread body, whatever the primitive
    answers and whether or not assertions are fatal.  Between two calls:
    a thread that is joinable has the socket of its kind, on a port of
    that kind; the pool holds a multiple of sixteen workers, all of them
    running; the stop flag is cleared only while a thread is joinable; and a
    port whose kind is Unknown has no socket and no thread. *)
Theorem reachable_consistent (fatal : bool) (p : t S D) :
  reachable fatal p -> consistent p.
Proof.
  induction 1 as [|p c p' log Hreach IH Hcall]; [apply consistent_make|].
  destruct c as [server datagram type address sb rb | | | observer | observer
                | script | script]; simpl in Hcall.
  - destruct (Create fatal server datagram type address sb rb p)
      as [[r q] l|] eqn:Hrun; [|done].
    injection Hcall as <- _. by apply Create_consistent in Hrun.
  - destruct (Close p) as [[r q] l|] eqn:Hrun; [|done].
    injection Hcall as <- _. by apply Close_consistent in Hrun.
  - destruct (GetState fatal p) as [[r q] l|] eqn:Hrun; [|done].
    injection Hcall as <- _. by apply GetState_frame in Hrun as ->.
  - injection Hcall as <- _. by apply consistent_set_observer_list.
  - unfold RemoveObserver in Hcall. unfold_monad.
    destruct (list_find _ (_observer_list p)) as [[item o]|];
      injection Hcall as <- _; [by apply consistent_set_observer_list | done].
  - destruct (_thread p) as [|[]|] eqn:Hbody; try by injection Hcall as <- _.
    destruct (server_proc script p) as [[[] q] l|] eqn:Hrun; [|done].
    injection Hcall as <- _. by apply server_proc_consistent in Hrun.
  - destruct (_thread p) as [|[]|] eqn:Hbody; try by injection Hcall as <- _.
    destruct (datagram_proc script p) as [[[] q] l|] eqn:Hrun; [|done].
    injection Hcall as <- _. by apply datagram_proc_consistent in Hrun.
Qed.

End Invariant.

(** ** The further properties on the example ports *)


Lemma Close_Tcp_result_witness :
  exists p' log,
    Close (Examples.created ov.SocketType.Tcp) = Done (true, p') log
    /\ _server_socket p' = None.
Proof.
  edestruct (Close_Tcp_result (Examples.created ov.SocketType.Tcp))
    as [_ Hsocket]; [by vm_compute..|].
  eexists _, _. split; [by vm_compute | exact Hsocket].
Defined.

(** [Close] of a Udp port whose primitive refuses to close returns false and
    keeps the socket. *)
Lemma Close_Udp_result_witness :
  exists p' log,
    Close (Examples.created_stuck ov.SocketType.Udp) = Done (false, p') log
    /\ _datagram_socket p' = Some TestSocket.stuck.
Proof.
  edestruct (Close_Udp_result (Examples.created_stuck ov.SocketType.Udp))
    as [_ Hsocket]; [by vm_compute..|].
  eexists _, _. split; [by vm_compute | exact Hsocket].
Defined.

Lemma Close_again_witness :
  (exists p' log,
     Close (Examples.created ov.SocketType.Tcp) = Done (true, p') log
     /\ Close p' = Done (false, p') [StopFlag true; WorkerListCleared])
  /\ (exists p' log,
        Close (Examples.created ov.SocketType.Udp) = Done (true, p') log
        /\ Close p' = Crash NullPointer).
Proof.
  split; eexists _, _; (split; [by vm_compute|]).
  - by apply (Close_again (Examples.created ov.SocketType.Tcp) _
                [StopFlag true; WorkerStop 0; WorkerStop 1; WorkerStop 2;
                 WorkerStop 3; WorkerStop 4; WorkerStop 5; WorkerStop 6;
                 WorkerStop 7; WorkerStop 8; WorkerStop 9; WorkerStop 10;
                 WorkerStop 11; WorkerStop 12; WorkerStop 13; WorkerStop 14;
                 WorkerStop 15; WorkerListCleared; SocketClose ByLoop;
                 ThreadJoined; SocketGetState; ObserverListCleared]).
  - by apply (Close_again (Examples.created ov.SocketType.Udp) _
                [StopFlag true; WorkerListCleared; SocketClose ByLoop;
                 ThreadJoined; SocketGetState; ObserverListCleared]).
Defined.

Lemma Close_true_silences_witness :
  exists p' log,
    Close (Examples.created ov.SocketType.Tcp) = Done (true, p') log
    /\ client_callback Examples.client37 ov.SocketConnectionState.Connected
         None p'
       = Done (ov.SocketConnectionState.Connected, p') [].
Proof.
  edestruct (Close_true_silences true (Examples.created ov.SocketType.Tcp))
    as [Hsilent _]; [by vm_compute|].
  eexists _, _. split; [by vm_compute | apply Hsilent].
Defined.

(** The open Tcp port with its observer cannot be destroyed: the assertion
    fails where it is fatal and the thread terminates the program where it
    is not; after [Close] it can. *)
Lemma Destroy_after_Close_witness :
  Destroy true (Examples.created ov.SocketType.Tcp) = Crash AssertionFailed
  /\ Destroy false (Examples.created ov.SocketType.Tcp) = Crash Terminate
  /\ exists p' log,
       Close (Examples.created ov.SocketType.Tcp) = Done (true, p') log
       /\ Destroy true p' = Done (tt, p') [].
Proof.
  split_and!.
  - by apply (Destroy_after_Close true (Examples.created ov.SocketType.Tcp)
                (Examples.created ov.SocketType.Tcp) true []).
  - by apply (Destroy_after_Close false (Examples.created ov.SocketType.Tcp)
                (Examples.created ov.SocketType.Tcp) true []).
  - eexists _, _. split; [by vm_compute|].
    eapply (proj1 (Destroy_after_Close true
                     (Examples.created ov.SocketType.Tcp) _ true _)).
    by vm_compute.
Defined.

Lemma DisconnectClient_needs_server_socket_witness :
  DisconnectClient Examples.client37 Examples.closed_port = Crash NullPointer
  /\ DisconnectClient Examples.client37 (Examples.created ov.SocketType.Udp)
     = Crash NullPointer
  /\ DisconnectClient Examples.client37 (Examples.created ov.SocketType.Tcp)
     = Done (true, Examples.created ov.SocketType.Tcp) [].
Proof.
  split_and!.
  - by apply (DisconnectClient_needs_server_socket Examples.client37
                Examples.closed_port).
  - by apply (DisconnectClient_needs_server_socket Examples.client37
                (Examples.created ov.SocketType.Udp)).
  - destruct (DisconnectClient_needs_server_socket Examples.client37
                (Examples.created ov.SocketType.Tcp)) as (_ & Hforward & _).
    assert (Hsocket : _server_socket (Examples.created ov.SocketType.Tcp)
                      = Some TestSocket.good) by (by vm_compute).
    rewrite (Hforward TestSocket.good Hsocket). by vm_compute.
Defined.

Lemma Create_datagram_witness :
  Create true TestSocket.good TestSocket.unbindable ov.SocketType.Udp
    Examples.address 0 0 Examples.closed_port
  = Done (false, Examples.closed_port)
         [SocketPrepare ov.SocketType.Udp Examples.address]
  /\ exists p',
       Create true TestSocket.good TestSocket.good ov.SocketType.Udp
         Examples.address 0 0 Examples.closed_port
       = Done (true, p')
              [SocketPrepare ov.SocketType.Udp Examples.address;
               StopFlag false; ThreadStarted DatagramLoop]
       /\ _worker_list p' = [].
Proof.
  split.
  - by apply (Create_datagram true TestSocket.good TestSocket.unbindable
                Examples.address 0 0 Examples.closed_port).
  - destruct (Create_datagram true TestSocket.good TestSocket.good
                Examples.address 0 0 Examples.closed_port)
      as [_ Hsuccess]; [done..|].
    destruct Hsuccess as (p' & Hrun & Hworkers & _); [done..|].
    by exists p'.
Defined.

(** An Srt port that was just created, and is listening, reports [Closed]. *)
Lemma GetState_after_Create_witness :
  ov.GetState TestSocket.good = ov.SocketState.Other 0
  /\ GetState true (Examples.created ov.SocketType.Srt)
     = Done (ov.SocketState.Closed, Examples.created ov.SocketType.Srt) []
  /\ GetState true (Examples.created ov.SocketType.Tcp)
     = Done (ov.SocketState.Other 0, Examples.created ov.SocketType.Tcp) [].
Proof.
  assert (Hcreated : forall type,
    type = ov.SocketType.Srt \/ type = ov.SocketType.Tcp ->
    exists log,
      Create true TestSocket.good TestSocket.good type Examples.address 0 0
        Examples.closed_port = Done (true, Examples.created type) log).
  { intros type [-> | ->]; eexists; by vm_compute. }
  split; [done|]. split.
  - destruct (Hcreated ov.SocketType.Srt) as [log Hrun]; [by left|].
    by rewrite (GetState_after_Create _ true _ _ _ _ _ _ _ _ _ Hrun).
  - destruct (Hcreated ov.SocketType.Tcp) as [log Hrun]; [by right|].
    by rewrite (GetState_after_Create _ true _ _ _ _ _ _ _ _ _ Hrun).
Defined.

Lemma Create_over_joinable_thread_witness :
  Create false TestSocket.good TestSocket.good ov.SocketType.Tcp
    Examples.address 0 0 (Examples.created ov.SocketType.Tcp)
  = Crash Terminate.
Proof.
  by apply (Create_over_joinable_thread TestSocket.good TestSocket.good
              ov.SocketType.Tcp Examples.address 0 0
              (Examples.created ov.SocketType.Tcp)).
Defined.

(** Adding [8], not registered, and removing it gives the port back; adding
    [7] again and removing it moves [7] behind [9], which is another port. *)
Lemma AddObserver_then_RemoveObserver_witness :
  let p : Examples.Port := set_observer_list [7; 9]%nat make in
  RemoveObserver 8%nat (set_observer_list [7; 9; 8]%nat p) = Done (true, p) []
  /\ RemoveObserver 7%nat (set_observer_list [7; 9; 7]%nat p)
     = Done (true, set_observer_list [9; 7]%nat p) []
  /\ set_observer_list [9; 7]%nat p <> p.
Proof.
  intros p.
  destruct (AddObserver_then_RemoveObserver 8%nat p)
    as (p8 & Hadd8 & Hfresh & _).
  destruct (AddObserver_then_RemoveObserver 7%nat p)
    as (p7 & Hadd7 & _ & Hknown).
  injection Hadd8 as <-. injection Hadd7 as <-.
  destruct (Hknown [] [9%nat]) as [Hmoved Hrestored];
    [done | apply not_elem_of_nil |].
  split_and!.
  - apply Hfresh. subst p. simpl. by not_logged.
  - exact Hmoved.
  - intros Hsame. apply Hrestored in Hsame.
    apply Forall_cons in Hsame as [Hnine _]. discriminate Hnine.
Defined.

(** The descriptor -1 on the port with its pool of sixteen: out of range. *)
Lemma data_callback_bounds_witness :
  data_callback Examples.invalid_client "PING"
    (Examples.created ov.SocketType.Tcp) = Crash OutOfRange
  /\ (task_index Examples.client37 < 16)%nat.
Proof.
  destruct (data_callback_bounds Examples.invalid_client "PING"
              (Examples.created ov.SocketType.Tcp))
    as (Hcrash & _ & _ & Hlarge & _).
  destruct (data_callback_bounds Examples.client37 "PING"
              (Examples.created ov.SocketType.Tcp))
    as (_ & _ & Hsmall & _).
  split.
  - apply Hcrash.
    assert (Hpool : length (_worker_list (Examples.created ov.SocketType.Tcp))
                    = 16%nat) by (by vm_compute).
    rewrite Hpool.
    assert (2 ^ 64 - 15 <= Z.of_nat (task_index Examples.invalid_client))
      by (apply Hlarge; [simpl; lia | by vm_compute]).
    lia.
  - apply Hsmall. left. simpl. lia.
Defined.

(** Two buffers of connection 37 and one of connection 5, which shares its
    worker, with a disconnect in between: worker 5 gets the three tasks in
    the order of arrival. *)
Lemma dispatch_keeps_arrival_order_witness :
  let events :=
    [DataEvent Examples.client37 "PI";
     ConnectionEvent Examples.client5 ov.SocketConnectionState.Connected None;
     DataEvent Examples.client5 "X";
     DataEvent Examples.client37 "NG"] in
  exists workers log,
    dispatch on_server_event events (Examples.created ov.SocketType.Tcp)
    = Done (tt, set_worker_list workers (Examples.created ov.SocketType.Tcp)) log
    /\ workers !! 5%nat
       = Some {| PhysicalPortWorker.running := true;
                 PhysicalPortWorker.queue :=
                   [(Examples.client37, "PI"); (Examples.client5, "X");
                    (Examples.client37, "NG")] |}.
Proof.
  intros events.
  destruct (dispatch_keeps_arrival_order events
              (Examples.created ov.SocketType.Tcp))
    as (workers & Hrun & _ & Hqueues & _).
  - intros client data Hin.
    assert (Hpool : length (_worker_list (Examples.created ov.SocketType.Tcp))
                    = 16%nat) by (by vm_compute).
    rewrite Hpool.
    subst events. apply list_elem_of_In in Hin. simpl in Hin.
    destruct Hin as [[= <- _] | [[=] | [[= <- _] | [[= <- _] | []]]]];
      vm_compute; lia.
  - eexists workers, _. split; [exact Hrun|].
    by rewrite (Hqueues 5%nat
      {| PhysicalPortWorker.running := true; PhysicalPortWorker.queue := [] |}).
Defined.

Lemma reachable_consistent_witness :
  consistent (Examples.created ov.SocketType.Tcp)
  /\ consistent (Examples.created_stuck ov.SocketType.Srt).
Proof.
  assert (Hclosed : reachable true Examples.closed_port).
  { eapply (reachable_call true make (CallAddObserver 7%nat));
      [apply reachable_make | by vm_compute]. }
  split; apply (reachable_consistent true).
  - eapply (reachable_call true Examples.closed_port
              (CallCreate TestSocket.good TestSocket.good ov.SocketType.Tcp
                 Examples.address 0 0)); [exact Hclosed | by vm_compute].
  - eapply (reachable_call true Examples.closed_port
              (CallCreate TestSocket.stuck TestSocket.stuck ov.SocketType.Srt
                 Examples.address 0 0)); [exact Hclosed | by vm_compute].
Defined.

Section Recovery.

Context {S D : Type} `{ov.ServerSocket S} `{ov.DatagramSocket D}.

(** X17: [Close] undoes a failed stream [Create].  On a closed port with an
    empty pool whose kind is not Udp, a [Create] of a stream kind whose
    [Prepare] fails leaves sixteen running workers behind; a [Close] right
    after it stops the sixteen and clears the pool, and although it returns
    false the port is exactly the one before the [Create]. *)
Theorem Close_after_failed_Create fatal (server : S) (datagram : D)
    type address sb rb (p : t S D) :
  stream_kind type = true ->
  _server_socket p = None -> _datagram_socket p = None ->
  _thread p = NoThread -> _worker_list p = [] -> _need_to_stop p = true ->
  _type p <> ov.SocketType.Udp ->
  fst (ov.Prepare server type address sb rb 4096) = false ->
  exists p1 log1,
    Create fatal server datagram type address sb rb p = Done (false, p1) log1
    /\ length (_worker_list p1) = 16%nat
    /\ Close p1
       = Done (false, p)
              ([StopFlag true] ++ map WorkerStop (seq 0 16) ++ [WorkerListCleared]).
Proof.
  intros Hkind Hsrv Hdgr Hthread Hworkers Hstop Htype Hprepare.
  rewrite Create_unfold, Hsrv, Hdgr. simpl.
  assert (Hrun : CreateServerSocket server type address sb rb p
                 = Done (false, set_worker_list (started_pool []) p)
                        (startup_log [] type address)).
  { rewrite CreateServerSocket_run, Hworkers. cbv zeta.
    destruct (ov.Prepare server type address sb rb 4096) as [prepared socket'].
    simpl in Hprepare. by subst prepared. }
  exists (set_worker_list (started_pool []) p), (startup_log [] type address).
  split; [by destruct type|]. split; [done|].
  destruct p as [ty addr srv dgr stop th ws os]. simpl in *. subst.
  unfold_members; unfold_monad.
  by destruct ty.
Qed.

(** X18: on a consistent port, and so on every port a program can get to,
    a [Create] with fatal assertions never ends in [std::terminate]: a thread
    that is still joinable has its socket, so the assertion at the top of
    [Create] stops the call before a thread could be assigned over it. *)
Theorem Create_fatal_never_terminates (server : S) (datagram : D)
    type address sb rb (p : t S D) :
  consistent p ->
  Create true server datagram type address sb rb p <> Crash Terminate.
Proof.
  intros [Hthread _ _ _ _]. rewrite Create_unfold, orb_false_r.
  destruct (is_null (_server_socket p) && is_null (_datagram_socket p))
    eqn:Hnull; [|done].
  apply andb_prop in Hnull as [Hsrv Hdgr].
  assert (Hidle : joinable (_thread p) = false).
  { unfold thread_has_socket in Hthread.
    destruct (_server_socket p), (_datagram_socket p); try done.
    destruct (_thread p) as [|[]|]; try done.
    - by destruct Hthread as [_ []].
    - by destruct Hthread as [_ []].
    - by destruct Hthread as [[_ []] | [_ []]]. }
  assert (Hserver : CreateServerSocket server type address sb rb p
                    <> Crash Terminate).
  { rewrite CreateServerSocket_run, Hidle. cbv zeta.
    by destruct (ov.Prepare server type address sb rb 4096) as [[] socket']. }
  destruct type; try done.
  rewrite CreateDatagramSocket_run, Hidle.
  by destruct (ov.PrepareDatagram datagram address) as [[] socket'].
Qed.

End Recovery.

Lemma Close_after_failed_Create_witness :
  exists p1 log1,
    Create true TestSocket.unbindable TestSocket.good ov.SocketType.Tcp
      Examples.address 0 0 Examples.closed_port = Done (false, p1) log1
    /\ exists log2, Close p1 = Done (false, Examples.closed_port) log2.
Proof.
  destruct (Close_after_failed_Create true TestSocket.unbindable
              TestSocket.good ov.SocketType.Tcp Examples.address 0 0
              Examples.closed_port)
    as (p1 & log1 & Hcreate & _ & Hclose); [done..|].
  exists p1, log1. split; [exact Hcreate|]. by eexists.
Defined.

(** The open Tcp port is consistent, and a second [Create] on it with fatal
    assertions stops at the assertion. *)
Lemma Create_fatal_never_terminates_witness :
  Create true TestSocket.good TestSocket.good ov.SocketType.Tcp
    Examples.address 0 0 (Examples.created ov.SocketType.Tcp)
  <> Crash Terminate.
Proof.
  apply Create_fatal_never_terminates.
  apply (Create_consistent true TestSocket.good TestSocket.good
           ov.SocketType.Tcp Examples.address 0 0 Examples.closed_port
           (Examples.created ov.SocketType.Tcp) true
           (startup_log [] ov.SocketType.Tcp Examples.address
            ++ [StopFlag false; ThreadStarted ServerLoop])).
  - by apply consistent_set_observer_list, consistent_make.
  - by vm_compute.
Defined.

Section LifeCycle.

Context {S D : Type} `{ov.ServerSocket S} `{ov.DatagramSocket D}.








End LifeCycle.

